(** * AssetGen: request validation, provider dispatch and local persistence

    A shallow embedding of the AssetGen server
    (middleware/validateRequest.js, middleware/rateLimiter.js,
    services/configService.js, services/assetService.js, config/index.js,
    controllers/assetController.js, routes/assetRoutes.js) and the
    properties its specification states about it.

    JavaScript strings are modelled as [string] (sequences of 8-bit units);
    the regular expressions of the source only distinguish the ASCII
    letters, digits and the underscore, and [toLowerCase] is modelled on
    the ASCII letters. *)

From Stdlib Require Import ZArith Lia Bool List Ascii String.
From Stdlib Require Import Numbers.DecimalString.
From stdpp Require Import base option list gmap strings.

Local Open Scope string_scope.

(** ** JavaScript strings *)

Module JsString.

Definition code (c : ascii) : nat := nat_of_ascii c.

(** [lo <= c <= hi] on character codes, as in a class range [lo-hi]. *)
Definition in_range (lo hi c : ascii) : bool :=
  (code lo <=? code c)%nat && (code c <=? code hi)%nat.

Definition lower_char (c : ascii) : ascii :=
  if in_range "A" "Z" c then ascii_of_nat (code c + 32) else c.

(** String.prototype.toLowerCase, on the ASCII letters; the other
    characters are left as they are. *)
Fixpoint toLowerCase (s : string) : string :=
  match s with
  | EmptyString => EmptyString
  | String c s' => String (lower_char c) (toLowerCase s')
  end.

(** String.prototype.substring(0, n) *)
Fixpoint take (n : nat) (s : string) : string :=
  match n, s with
  | S n', String c s' => String c (take n' s')
  | _, _ => EmptyString
  end.

Fixpoint drop (n : nat) (s : string) : string :=
  match n, s with
  | S n', String _ s' => drop n' s'
  | _, _ => s
  end.

Definition substring (from to : nat) (s : string) : string :=
  take (to - from) (drop from s).

Fixpoint prefixb (p s : string) : bool :=
  match p, s with
  | EmptyString, _ => true
  | String a p', String b s' => Ascii.eqb a b && prefixb p' s'
  | String _ _, EmptyString => false
  end.

(** String.prototype.includes *)
Fixpoint includes (s needle : string) : bool :=
  prefixb needle s ||
  match s with
  | EmptyString => false
  | String _ s' => includes s' needle
  end.

(** The double quote character, as a string. *)
Definition dquote : string := String (ascii_of_nat 34) EmptyString.

Fixpoint all_chars (p : ascii -> bool) (s : string) : bool :=
  match s with
  | EmptyString => true
  | String c s' => p c && all_chars p s'
  end.

End JsString.

(** ** Regular expressions

    The fragment of ECMAScript regular expressions the source uses, with
    the backtracking semantics of the language: a matcher returns the
    cursors at which a match can end, in the order in which backtracking
    tries them, so the head of the list is the match the engine reports. *)

Module Regex.
Import JsString.

Inductive regex : Type :=
| Lit (c : ascii)                                   (* a literal character *)
| Class (negated : bool) (ranges : list (ascii * ascii))  (* [a-z0-9], [^a-z0-9] *)
| Bol                                               (* ^ *)
| Eol                                               (* $ *)
| Cat (r1 r2 : regex)                               (* r1 r2 *)
| Alt (r1 r2 : regex)                               (* r1 | r2 *)
| Plus (r : regex).                                 (* r+ (greedy) *)

(** A cursor: whether it stands at index 0 of the subject, and what is
    left of the subject after it. *)
Definition cursor : Type := bool * string.

Definition class_matches (negated : bool) (ranges : list (ascii * ascii))
    (c : ascii) : bool :=
  xorb negated (existsb (fun r => in_range (fst r) (snd r) c) ranges).

(** Zero or more further iterations of [step], as many as possible first
    (a greedy quantifier); an iteration that consumes nothing is given up.
    The fuel is the number of characters left. *)
Fixpoint star_iter (step : cursor -> list cursor) (fuel : nat)
    (cur : cursor) : list cursor :=
  match fuel with
  | O => [cur]
  | S fuel' =>
      (flat_map
         (fun cur1 =>
            if (String.length (snd cur1) <? String.length (snd cur))%nat
            then star_iter step fuel' cur1
            else [])
         (step cur)
       ++ [cur])%list
  end.

Fixpoint rmatch (r : regex) (cur : cursor) : list cursor :=
  match r with
  | Lit c =>
      match snd cur with
      | String c' s' => if Ascii.eqb c c' then [(false, s')] else []
      | EmptyString => []
      end
  | Class negated ranges =>
      match snd cur with
      | String c' s' =>
          if class_matches negated ranges c' then [(false, s')] else []
      | EmptyString => []
      end
  | Bol => if fst cur then [cur] else []
  | Eol => match snd cur with EmptyString => [cur] | _ => [] end
  | Cat r1 r2 => flat_map (rmatch r2) (rmatch r1 cur)
  | Alt r1 r2 => (rmatch r1 cur ++ rmatch r2 cur)%list
  | Plus r1 =>
      flat_map (star_iter (rmatch r1) (String.length (snd cur))) (rmatch r1 cur)
  end.

(** String.prototype.replace(/r/g, rep) for a replacement text without
    [$] patterns.  The subject is scanned from index 0; [skip] counts the
    characters of the current match still to be dropped.  At an index
    where the expression matches, the replacement is emitted and the scan
    resumes at the end of the match (one character further, keeping that
    character, when the match is empty). *)
Fixpoint replace_scan (r : regex) (rep : string) (skip : nat) (bol : bool)
    (s : string) : string :=
  match skip with
  | S k =>
      match s with
      | EmptyString => EmptyString
      | String _ s' => replace_scan r rep k false s'
      end
  | O =>
      match rmatch r (bol, s) with
      | [] =>
          match s with
          | EmptyString => EmptyString
          | String c s' => String c (replace_scan r rep 0 false s')
          end
      | cur1 :: _ =>
          let k := (String.length s - String.length (snd cur1))%nat in
          rep +:+
          match s with
          | EmptyString => EmptyString
          | String c s' =>
              match k with
              | O => String c (replace_scan r rep 0 false s')
              | S k' => replace_scan r rep k' false s'
              end
          end
      end
  end.

Definition replace_all (r : regex) (rep : string) (s : string) : string :=
  replace_scan r rep 0 true s.

End Regex.

(** ** Filename generation (AssetService.generateFilename) *)

Module Filename.
Import JsString Regex.

(** /[^a-z0-9]+/g *)
Definition re_non_alnum : regex :=
  Plus (Class true [("a", "z"); ("0", "9")]%char).

(** /^_|_$/g *)
Definition re_edge_underscore : regex :=
  Alt (Cat Bol (Lit "_")) (Cat (Lit "_") Eol).

(** query.toLowerCase().replace(/[^a-z0-9]+/g, '_')
         .replace(/^_|_$/g, '').substring(0, 50) *)
Definition slug (query : string) : string :=
  substring 0 50
    (replace_all re_edge_underscore EmptyString
       (replace_all re_non_alnum "_" (toLowerCase query))).

End Filename.

(** ** JavaScript values

    The values a decoded JSON document can hold.  Arrays and objects carry
    the reference they live at: [===] compares them by reference.  Numbers
    are the integers. *)

Module Js.

#[warnings="-register-all"]
Inductive value : Type :=
| Undefined
| Null
| Bool (b : bool)
| Num (n : Z)
| Str (s : string)
| Arr (ref : nat) (elems : list value)
| Obj (ref : nat) (props : list (string * value)).

(** ToBoolean *)
Definition truthy (v : value) : bool :=
  match v with
  | Undefined | Null => false
  | Bool b => b
  | Num n => negb (n =? 0)%Z
  | Str s => negb (String.eqb s EmptyString)
  | Arr _ _ | Obj _ _ => true
  end.

(** [a || b] *)
Definition or_else (a b : value) : value := if truthy a then a else b.

(** [a === b] *)
Definition strict_eq (a b : value) : bool :=
  match a, b with
  | Undefined, Undefined => true
  | Null, Null => true
  | Bool x, Bool y => Bool.eqb x y
  | Num x, Num y => (x =? y)%Z
  | Str x, Str y => String.eqb x y
  | Arr r1 _, Arr r2 _ => (r1 =? r2)%nat
  | Obj r1 _, Obj r2 _ => (r1 =? r2)%nat
  | _, _ => false
  end.

Definition typeof (v : value) : string :=
  match v with
  | Undefined => "undefined"
  | Null => "object"
  | Bool _ => "boolean"
  | Num _ => "number"
  | Str _ => "string"
  | Arr _ _ | Obj _ _ => "object"
  end.

Fixpoint lookup_prop (k : string) (props : list (string * value)) : value :=
  match props with
  | [] => Undefined
  | (k', v) :: rest => if String.eqb k k' then v else lookup_prop k rest
  end.

(** [v.k] for the property names the source reads (query, type, format,
    style, api_key, provider, transparent, apiKey), none of which is
    defined on strings, numbers, booleans or arrays.  Reading a property
    of null or undefined throws in JavaScript; [get] reads as [Undefined]
    there, so what is stated of a request body is stated of a body that
    is neither. *)
Definition get (v : value) (k : string) : value :=
  match v with
  | Obj _ props => lookup_prop k props
  | _ => Undefined
  end.

(** [v?.k] *)
Definition get_opt (v : value) (k : string) : value :=
  match v with
  | Undefined | Null => Undefined
  | _ => get v k
  end.

(** A default parameter value: [{ p = d }]. *)
Definition default_to (v d : value) : value :=
  match v with
  | Undefined => d
  | _ => v
  end.

Definition string_of_Z (n : Z) : string :=
  NilZero.string_of_int (Z.to_int n).

(** ToString, as applied by a template literal: a string is itself, an
    integer prints its decimal digits (as JavaScript does below 10^21),
    an object prints as Object.prototype.toString does (a [toString] of
    its own is not consulted). *)
Fixpoint to_string (v : value) : string :=
  match v with
  | Undefined => "undefined"
  | Null => "null"
  | Bool true => "true"
  | Bool false => "false"
  | Num n => string_of_Z n
  | Str s => s
  | Arr _ elems =>
      (fix join (l : list value) : string :=
         match l with
         | [] => EmptyString
         | e :: rest =>
             let item :=
               match e with
               | Undefined | Null => EmptyString
               | _ => to_string e
               end in
             match rest with
             | [] => item
             | _ :: _ => item +:+ "," +:+ join rest
             end
         end) elems
  | Obj _ _ => "[object Object]"
  end.

(** Array.prototype.includes on an array literal of strings. *)
Definition includes (literals : list string) (v : value) : bool :=
  existsb (fun s => strict_eq (Str s) v) literals.

End Js.

(** ** Buffers and base64 *)

Module Buffer.

Definition t : Type := list Byte.byte.

Definition sextet (c : ascii) : option N :=
  let n := N_of_ascii c in
  if JsString.in_range "A" "Z" c then Some (n - 65)%N
  else if JsString.in_range "a" "z" c then Some (n - 71)%N
  else if JsString.in_range "0" "9" c then Some (n + 4)%N
  else if Ascii.eqb c "+" then Some 62%N
  else if Ascii.eqb c "/" then Some 63%N
  else None.

(** The 6-bit digits of the text up to the padding. *)
Fixpoint sextets (s : string) : list N :=
  match s with
  | EmptyString => []
  | String c s' =>
      if Ascii.eqb c "=" then []
      else match sextet c with
           | Some n => n :: sextets s'
           | None => sextets s'
           end
  end.

Definition octet (n : N) : Byte.byte := byte_of_ascii (ascii_of_N (n mod 256)).

Fixpoint octets (l : list N) : t :=
  match l with
  | a :: b :: c :: d :: rest =>
      let w := N.lor (N.shiftl a 18) (N.lor (N.shiftl b 12) (N.lor (N.shiftl c 6) d)) in
      octet (N.shiftr w 16) :: octet (N.shiftr w 8) :: octet w :: octets rest
  | [a; b; c] =>
      let w := N.lor (N.shiftl a 18) (N.lor (N.shiftl b 12) (N.shiftl c 6)) in
      [octet (N.shiftr w 16); octet (N.shiftr w 8)]
  | [a; b] =>
      let w := N.lor (N.shiftl a 18) (N.shiftl b 12) in
      [octet (N.shiftr w 16)]
  | _ => []
  end.

(** Buffer.from(text, 'base64') *)
Definition from_base64 (text : string) : t := octets (sextets text).

(** A big-endian 32-bit number. *)
Definition be32 (b3 b2 b1 b0 : Byte.byte) : N :=
  N.lor (N.shiftl (Byte.to_N b3) 24)
    (N.lor (N.shiftl (Byte.to_N b2) 16)
       (N.lor (N.shiftl (Byte.to_N b1) 8) (Byte.to_N b0))).

(** The width, height and colour type a PNG file declares: the 8-byte
    signature, then the IHDR chunk (length 13, its tag, width, height,
    bit depth, colour type). *)
Definition png_header (bytes : t) : option (N * N * N) :=
  match bytes with
  | Byte.x89 :: Byte.x50 :: Byte.x4e :: Byte.x47
    :: Byte.x0d :: Byte.x0a :: Byte.x1a :: Byte.x0a
    :: Byte.x00 :: Byte.x00 :: Byte.x00 :: Byte.x0d
    :: Byte.x49 :: Byte.x48 :: Byte.x44 :: Byte.x52
    :: w3 :: w2 :: w1 :: w0 :: h3 :: h2 :: h1 :: h0
    :: _depth :: colour :: _ =>
      Some (be32 w3 w2 w1 w0, be32 h3 h2 h1 h0, Byte.to_N colour)
  | _ => None
  end.

End Buffer.

(** ** The world the server runs in

    Outbound HTTP calls, the local disk, the random identifiers and the
    rate limiter's counters are the state of a computation; what the
    network answers, which disk operations fail and which identifiers are
    drawn are given by the environment. *)

Module Sys.

(** The JSON body posted to the image endpoint. *)
Record ImagesRequest : Type := {
  prompt : Js.value;
  n : Z;
  size : string;
  response_format : string;
}.

Inductive HttpCall : Type :=
| Post (url : string) (body : ImagesRequest) (authorization : string)
| Get (url : string).

(** The body of a successful answer of the image endpoint, at the shape
    the source reads it: [response.data[0].url]. *)
Record ImageEntry : Type := { url : string }.
Record ImagesBody : Type := { data : option (list ImageEntry) }.

(** The body of an error answer, at the shape the source reads it,
    [data.error?.message]: the JSON document null, on which reading
    [error] throws, or a document that may hold an [error] that may hold
    a [message]. *)
Record ErrorDetail : Type := { message : option string }.
Inductive ErrorBody : Type :=
| NullBody
| Document (error : option ErrorDetail).

(** What a thrown value carries: an [Error] has a message; the error of
    an HTTP client call also has the upstream response, when there was
    one. *)
Inductive JsError : Type :=
| Error (msg : string)
| TypeError (msg : string)
| AxiosError (msg : string) (response : option (Z * ErrorBody)).

Definition error_message (e : JsError) : string :=
  match e with
  | Error m | TypeError m | AxiosError m _ => m
  end.

Definition error_response (e : JsError) : option (Z * ErrorBody) :=
  match e with
  | AxiosError _ r => r
  | _ => None
  end.

Inductive Reply (A : Type) : Type :=
| Answer (a : A)
| Failure (e : JsError).
Arguments Answer {A} a.
Arguments Failure {A} e.

(** A window of the rate limiter. *)
Record RateWindow : Type := { count : Z; windowStart : Z }.

Record World : Type := {
  outbound : list HttpCall;            (* calls issued so far, latest first *)
  files : gmap string Buffer.t;        (* contents of the files on disk *)
  dirs : gset string;                  (* directories on disk *)
  drawn : nat;                         (* identifiers drawn so far *)
  windows : gmap string RateWindow;    (* rate limiter, per client *)
}.

Record Env : Type := {
  (* axios.post / axios.get: the answer to a call, given the earlier ones *)
  post_reply : list HttpCall -> string -> ImagesRequest -> string ->
               Reply (option ImagesBody);
  get_reply : list HttpCall -> string -> Reply Buffer.t;
  (* fs: the error, if any, with which creating a directory or writing a
     file fails *)
  mkdir_fault : string -> option string;
  write_fault : string -> option string;
  (* uuid: the i-th identifier uuidv4() returns *)
  uuid_source : nat -> string;
  (* path.join, path.dirname *)
  path_join : string -> string -> string;
  path_dirname : string -> string;
  (* config/index.js *)
  assetStorage_path : string;
  rateLimit_windowMs : Z;
  rateLimit_max : Z;
}.

(** Computations: they read and change the world, and return or throw. *)
Inductive Outcome (A : Type) : Type :=
| Return (a : A)
| Throw (e : JsError).
Arguments Return {A} a.
Arguments Throw {A} e.

Definition M (A : Type) : Type := World -> Outcome A * World.

Definition ret {A} (a : A) : M A := fun w => (Return a, w).

Definition throw {A} (e : JsError) : M A := fun w => (Throw e, w).

Definition bind {A B} (m : M A) (k : A -> M B) : M B :=
  fun w =>
    match m w with
    | (Return a, w') => k a w'
    | (Throw e, w') => (Throw e, w')
    end.

(** try { m } catch (error) { handler error } *)
Definition try_catch {A} (m : M A) (handler : JsError -> M A) : M A :=
  fun w =>
    match m w with
    | (Return a, w') => (Return a, w')
    | (Throw e, w') => handler e w'
    end.

Definition set_outbound (l : list HttpCall) (w : World) : World :=
  {| outbound := l; files := files w; dirs := dirs w; drawn := drawn w;
     windows := windows w |}.
Definition set_files (f : gmap string Buffer.t) (w : World) : World :=
  {| outbound := outbound w; files := f; dirs := dirs w; drawn := drawn w;
     windows := windows w |}.
Definition set_dirs (d : gset string) (w : World) : World :=
  {| outbound := outbound w; files := files w; dirs := d; drawn := drawn w;
     windows := windows w |}.
Definition set_drawn (k : nat) (w : World) : World :=
  {| outbound := outbound w; files := files w; dirs := dirs w; drawn := k;
     windows := windows w |}.
Definition set_windows (ws : gmap string RateWindow) (w : World) : World :=
  {| outbound := outbound w; files := files w; dirs := dirs w;
     drawn := drawn w; windows := ws |}.

Section Primitives.
Context (env : Env).

(** axios.post(url, body, { headers: { Authorization } }), returning
    [response.data] *)
Definition axios_post (url : string) (body : ImagesRequest)
    (authorization : string) : M (option ImagesBody) :=
  fun w =>
    let w' := set_outbound (Post url body authorization :: outbound w) w in
    match post_reply env (outbound w) url body authorization with
    | Answer a => (Return a, w')
    | Failure e => (Throw e, w')
    end.

(** axios.get(url, { responseType: 'arraybuffer' }), returning
    [response.data] *)
Definition axios_get (url : string) : M Buffer.t :=
  fun w =>
    let w' := set_outbound (Get url :: outbound w) w in
    match get_reply env (outbound w) url with
    | Answer a => (Return a, w')
    | Failure e => (Throw e, w')
    end.

Definition fs_existsSync (path : string) : M bool :=
  fun w => (Return (bool_decide (path ∈ dirs w)
                    || bool_decide (is_Some (files w !! path))), w).

(** fs.mkdirSync(dir, { recursive: true }) *)
Definition fs_mkdirSync (dir : string) : M unit :=
  fun w =>
    match mkdir_fault env dir with
    | Some msg => (Throw (Error msg), w)
    | None => (Return tt, set_dirs ({[ dir ]} ∪ dirs w) w)
    end.

Definition fs_writeFileSync (path : string) (data : Buffer.t) : M unit :=
  fun w =>
    match write_fault env path with
    | Some msg => (Throw (Error msg), w)
    | None => (Return tt, set_files (<[ path := data ]> (files w)) w)
    end.

Definition uuidv4 : M string :=
  fun w => (Return (uuid_source env (drawn w)), set_drawn (S (drawn w)) w).

End Primitives.

End Sys.

#[export] Instance M_ret : MRet Sys.M := @Sys.ret.
#[export] Instance M_bind : MBind Sys.M := fun A B k m => Sys.bind m k.

(** ** services/configService.js *)

Module ConfigService.
Import Js.

(** What is found at .assetgen/config.json. *)
Inductive ConfigFile : Type :=
| NoFile                          (* fs.existsSync is false *)
| Unreadable (reason : string)    (* fs.readFileSync throws *)
| Contents (configData : string).

Definition fallback : value :=
  Obj 0 [("provider", Str "openai"); ("apiKey", Null);
         ("storagePath", Str "./generated-assets")].

Section Load.
(** JSON.parse: [None] when it throws a SyntaxError. *)
Context (JSON_parse : string -> option value).

(** The value of [this.config] after the constructor has run. *)
Definition loadConfig (file : ConfigFile) : value :=
  match file with
  | Contents configData =>
      match JSON_parse configData with
      | Some parsed => parsed
      | None => fallback
      end
  | Unreadable _ => fallback
  | NoFile => fallback
  end.
End Load.

Definition getDefaultApiKey (config : value) (provider : value) : value :=
  if negb (truthy config) then Null
  else if strict_eq provider (get config "provider") then get config "apiKey"
  else Null.

Definition getDefaultProvider (config : value) : value :=
  or_else (get_opt config "provider") (Str "openai").

End ConfigService.

(** ** HTTP responses of the server *)

Module Http.

(** The [meta] object of a generated asset. *)
Module Meta.
Record t : Type := {
  format : string;
  style : Js.value;
  dimensions : string;
  transparent : Js.value;
  query : Js.value;
}.
End Meta.

Record GeneratedAsset : Type := {
  status : string;
  file_path : string;
  file_name : string;
  meta : Meta.t;
}.

Inductive Json : Type :=
| AssetJson (asset : GeneratedAsset)
| ErrorJson (message : string)                       (* { status: 'error', message } *)
| ErrorDetailsJson (message : string) (details : string).  (* ... and details *)

Record Response : Type := { statusCode : Z; json : Json }.

(** res.status(code).json(payload) *)
Definition respond (code : Z) (payload : Json) : Sys.M Response :=
  mret {| statusCode := code; json := payload |}.

End Http.

(** ** middleware/validateRequest.js *)

Module ValidateRequest.
Import JsString Js Sys Http ConfigService.

Definition validateGenerateRequest (config : value) (body : value)
    (next : M Response) : M Response :=
  let query := get body "query" in
  let type := get body "type" in
  let format := get body "format" in
  let api_key := get body "api_key" in
  let provider := get body "provider" in
  let transparent := get body "transparent" in
  let defaultProvider := getDefaultProvider config in
  if negb (truthy query) then
    respond 400 (ErrorJson "Missing required field: query")
  else if negb (truthy type) then
    respond 400 (ErrorJson "Missing required field: type")
  else if negb (strict_eq type (Str "image")) then
    respond 400
      (ErrorJson ("Unsupported asset type. Currently only " +:+ dquote +:+ "image"
                  +:+ dquote +:+ " is supported."))
  else if truthy format && negb (includes ["sprite"; "icon"; "component"] format) then
    respond 400
      (ErrorJson "Unsupported format. Supported formats are: sprite, icon, component")
  else
    let effectiveProvider := or_else provider defaultProvider in
    let defaultApiKey := getDefaultApiKey config effectiveProvider in
    if negb (truthy api_key) && negb (truthy defaultApiKey) then
      respond 400
        (ErrorJson "Missing required field: api_key. You must provide your own API key or configure one using the CLI.")
    else if truthy provider
            && negb (includes ["openai"; "stability"; "replicate"] provider) then
      respond 400
        (ErrorJson "Unsupported provider. Supported providers are: openai, stability, replicate")
    else if negb (strict_eq transparent Undefined)
            && negb (String.eqb (typeof transparent) "boolean") then
      respond 400
        (ErrorJson "Invalid value for transparent. Must be a boolean (true or false).")
    else next.

End ValidateRequest.

(** ** services/assetService.js *)

Module AssetService.
Import JsString Js Sys Http ConfigService.

Definition transparent_png : string :=
  "iVBORw0KGgoAAAANSUhEUgAAAAEAAAABCAQAAAC1HAwCAAAAC0lEQVR42mNkYAAAAAYAAjCB0C8AAAAASUVORK5CYII=".

Definition white_png : string :=
  "iVBORw0KGgoAAAANSUhEUgAAAAEAAAABCAIAAACQd1PeAAAADElEQVQI12P4//8/AAX+Av7czFnnAAAAAElFTkSuQmCC".

(** getPlaceholderImageData(transparent = true) *)
Definition getPlaceholderImageData (transparent : value) : Buffer.t :=
  let transparent := default_to transparent (Bool true) in
  if truthy transparent then Buffer.from_base64 transparent_png
  else Buffer.from_base64 white_png.

(** The name generateFilename returns for a string query, given the
    identifier uuidv4() drew. *)
Definition filename_of (query : string) (format : value) (uuid : string)
    : string :=
  let slug := Filename.slug query in
  let uniqueId := substring 0 8 uuid in
  slug +:+ "_" +:+ to_string (or_else format (Str "image")) +:+ "_"
       +:+ uniqueId +:+ ".png".

Definition images_endpoint : string :=
  "https://api.openai.com/v1/images/generations".

(** { prompt, n: 1, size: '1024x1024', response_format: 'url' } *)
Definition images_request (adjustedPrompt : value) : ImagesRequest :=
  {| prompt := adjustedPrompt; n := 1; size := "1024x1024";
     response_format := "url" |}.

(** [data.error?.message || 'Unknown error']; reading [data.error]
    throws when [data] is null. *)
Definition upstream_detail (data : ErrorBody) : M string :=
  match data with
  | NullBody =>
      throw (TypeError "Cannot read properties of null (reading 'error')")
  | Document error =>
      match error with
      | Some detail =>
          match message detail with
          | Some m =>
              mret (if String.eqb m EmptyString then "Unknown error" else m)
          | None => mret "Unknown error"
          end
      | None => mret "Unknown error"
      end
  end.

Section Service.
Context (env : Env) (config : value).

(** generateFilename(query, format); [query.toLowerCase()] throws when
    the query is not a string. *)
Definition generateFilename (query format : value) : M string :=
  match query with
  | Str q =>
      uuid ← uuidv4 env;
      mret (filename_of q format uuid)
  | Undefined | Null =>
      throw (TypeError ("Cannot read properties of " +:+ to_string query
                        +:+ " (reading 'toLowerCase')"))
  | _ => throw (TypeError "query.toLowerCase is not a function")
  end.

(** saveImageToDisk(filePath, imageData) *)
Definition saveImageToDisk (filePath : string) (imageData : Buffer.t)
    : M unit :=
  try_catch
    (let dir := path_dirname env filePath in
     present ← fs_existsSync dir;
     (if negb present then fs_mkdirSync env dir else mret tt);;
     fs_writeFileSync env filePath imageData)
    (fun error =>
       throw (Error ("Failed to save image: " +:+ error_message error))).

(** downloadImage(url) *)
Definition downloadImage (url : string) : M Buffer.t :=
  try_catch
    (axios_get env url)
    (fun error =>
       throw (Error ("Failed to download image: " +:+ error_message error))).

(** callOpenAIImageAPI(prompt, api_key, transparent = true) *)
Definition callOpenAIImageAPI (prompt api_key transparent : value)
    : M (option ImagesBody) :=
  let transparent := default_to transparent (Bool true) in
  try_catch
    (let adjustedPrompt :=
       if truthy transparent
       then Str (to_string prompt +:+ " with transparent background")
       else prompt in
     axios_post env images_endpoint (images_request adjustedPrompt)
       ("Bearer " +:+ to_string api_key))
    (fun error =>
       match error_response error with
       | Some (status, data) =>
           if (status =? 401)%Z then
             throw (Error "API key is invalid or expired.")
           else if (status =? 429)%Z then
             throw (Error "Rate limit exceeded. Please try again later.")
           else if (status =? 400)%Z then
             detail ← upstream_detail data;
             throw (Error ("Bad request: " +:+ detail))
           else
             detail ← upstream_detail data;
             throw (Error ("OpenAI API error (" +:+ string_of_Z status
                           +:+ "): " +:+ detail))
       | None =>
           throw (Error ("Failed to call OpenAI API: "
                         +:+ error_message error))
       end).

(** generateImage({ query, format, style, api_key, provider, transparent });
    its catch clause logs and rethrows. *)
Definition generateImage (query format style api_key provider transparent
    : value) : M GeneratedAsset :=
  filename ← generateFilename query format;
  let filePath := path_join env (assetStorage_path env) filename in
  imageData ←
    (if strict_eq provider (Str "openai") then
       response ← callOpenAIImageAPI query api_key transparent;
       match response with
       | Some {| data := Some (first :: _) |} =>
           let imageUrl := url first in
           downloadImage imageUrl
       | _ => throw (Error "No image data returned from OpenAI API")
       end
     else
       mret (getPlaceholderImageData transparent));
  saveImageToDisk filePath imageData;;
  mret {| status := "success";
          file_path := filePath;
          file_name := filename;
          meta := {| Meta.format := "png";
                     Meta.style := or_else style (Str "default");
                     Meta.dimensions := "256x256";
                     Meta.transparent := transparent;
                     Meta.query := query |} |}.

(** generateAsset({ query, type, format, style, api_key,
                    provider = null, transparent = true });
    its catch clause logs and rethrows. *)
Definition generateAsset (query type format style api_key provider
    transparent : value) : M GeneratedAsset :=
  let provider := default_to provider Null in
  let transparent := default_to transparent (Bool true) in
  let provider := or_else provider (getDefaultProvider config) in
  let api_key := or_else api_key (getDefaultApiKey config provider) in
  if negb (truthy api_key) then
    throw (Error ("No API key provided for " +:+ to_string provider
                  +:+ ". Please provide an API key or configure one using the CLI."))
  else if strict_eq type (Str "image") then
    generateImage query format style api_key provider transparent
  else
    throw (Error ("Unsupported asset type: " +:+ to_string type)).

End Service.

End AssetService.

(** ** services/assetService.js, the revision that only writes placeholders *)

Module PlaceholderService.
Import JsString Js Sys Http ConfigService.

Section Service.
Context (env : Env) (config : value).

(** createPlaceholderImage(filePath, transparent = true) *)
Definition createPlaceholderImage (filePath : string) (transparent : value)
    : M unit :=
  let transparent := default_to transparent (Bool true) in
  try_catch
    (let dir := path_dirname env filePath in
     present ← fs_existsSync dir;
     (if negb present then fs_mkdirSync env dir else mret tt);;
     let pixelData :=
       if truthy transparent
       then Buffer.from_base64 AssetService.transparent_png
       else Buffer.from_base64 AssetService.white_png in
     fs_writeFileSync env filePath pixelData)
    (fun error =>
       throw (Error ("Failed to create placeholder image: "
                     +:+ error_message error))).

(** generateImage: after a simulated delay, names the file and writes
    the placeholder. *)
Definition generateImage (query format style api_key provider transparent
    : value) : M GeneratedAsset :=
  filename ← AssetService.generateFilename env query format;
  let filePath := path_join env (assetStorage_path env) filename in
  createPlaceholderImage filePath transparent;;
  mret {| status := "success";
          file_path := filePath;
          file_name := filename;
          meta := {| Meta.format := "png";
                     Meta.style := or_else style (Str "default");
                     Meta.dimensions := "256x256";
                     Meta.transparent := transparent;
                     Meta.query := query |} |}.

Definition generateAsset (query type format style api_key provider
    transparent : value) : M GeneratedAsset :=
  let provider := default_to provider Null in
  let transparent := default_to transparent (Bool true) in
  let provider := or_else provider (getDefaultProvider config) in
  let api_key := or_else api_key (getDefaultApiKey config provider) in
  if negb (truthy api_key) then
    throw (Error ("No API key provided for " +:+ to_string provider
                  +:+ ". Please provide an API key or configure one using the CLI."))
  else if strict_eq type (Str "image") then
    generateImage query format style api_key provider transparent
  else
    throw (Error ("Unsupported asset type: " +:+ to_string type)).

End Service.

End PlaceholderService.

(** ** controllers/assetController.js *)

Module AssetController.
Import JsString Js Sys Http.

Section Controller.
Context (env : Env) (config : value).

Definition generateAsset (body : value) : M Response :=
  try_catch
    (result ← AssetService.generateAsset env config
                (get body "query") (get body "type") (get body "format")
                (get body "style") (get body "api_key")
                (get body "provider") (get body "transparent");
     respond 200 (AssetJson result))
    (fun error =>
       let msg := error_message error in
       let '(statusCode, errorMessage) :=
         if JsString.includes msg "API key" then
           (401%Z, "Invalid or missing API key.")
         else if JsString.includes msg "provider" then
           (400%Z, "Invalid provider specified.")
         else if JsString.includes msg "rate limit" then
           (429%Z, "Rate limit exceeded. Please try again later.")
         else
           (500%Z, "An error occurred while generating the asset.") in
       respond statusCode (ErrorDetailsJson errorMessage msg)).

End Controller.

End AssetController.

(** ** middleware/rateLimiter.js *)

Module RateLimiter.
Import Sys Http.

(** Modelled from the spec: the fixed-window algorithm of the
    express-rate-limit package, which the source only configures
    (windowMs, max and the message of the rejection).  Per client, a
    counter and the start of its window; on each request the window is
    reset when [now - windowStart >= W], the counter is incremented, and
    the request is rejected when the counter exceeds [max].  A client
    that has no window yet gets one that starts now. *)
Definition hit (W max : Z) (client : string) (now : Z)
    (ws : gmap string RateWindow) : bool * gmap string RateWindow :=
  let current :=
    match ws !! client with
    | Some win =>
        if (now - windowStart win >=? W)%Z
        then {| count := 0; windowStart := now |}
        else win
    | None => {| count := 0; windowStart := now |}
    end in
  let counted :=
    {| count := count current + 1; windowStart := windowStart current |} in
  ((count counted >? max)%Z, <[ client := counted ]> ws).

Section Limiter.
Context (env : Env).

(** apiRateLimiter(req, res, next) *)
Definition apiRateLimiter (client : string) (now : Z) (next : M Response)
    : M Response :=
  fun w =>
    let '(rejected, ws) :=
      hit (rateLimit_windowMs env) (rateLimit_max env) client now
          (windows w) in
    let w' := set_windows ws w in
    if rejected
    then respond 429 (ErrorJson "Too many requests, please try again later.") w'
    else next w'.

End Limiter.

End RateLimiter.

(** ** routes/assetRoutes.js *)

Module AssetRoutes.
Import Sys Http.

Record Request : Type := {
  ip : string;       (* the client the limiter counts *)
  now : Z;           (* the time at which the request is handled *)
  body : Js.value;   (* req.body, the decoded JSON document *)
}.

(** router.post('/generate', apiRateLimiter, validateGenerateRequest,
                assetController.generateAsset) *)
Definition post_generate (env : Env) (config : Js.value) (req : Request)
    : M Response :=
  RateLimiter.apiRateLimiter env (ip req) (now req)
    (ValidateRequest.validateGenerateRequest config (body req)
       (AssetController.generateAsset env config (body req))).

(** The requests of a list, served one after the other. *)
Fixpoint serve (env : Env) (config : Js.value) (reqs : list Request)
    : M (list Response) :=
  match reqs with
  | [] => mret []
  | req :: rest =>
      response ← post_generate env config req;
      responses ← serve env config rest;
      mret (response :: responses)
  end.

End AssetRoutes.

(** ** The specification's own words

    The definitions of this module follow the text of the specification,
    not the source; the theorems compare them with the embedding of the
    source. *)

Module Spec.
Import JsString.

(** [a-z0-9] *)
Definition slug_char (c : ascii) : bool :=
  in_range "a" "z" c || in_range "0" "9" c.

Definition is_underscore (c : ascii) : bool := Ascii.eqb c "_".

(** "Replace every maximal run of characters outside [a-z0-9] with a
    single _": [in_run] tells whether the previous character was
    already part of a run. *)
Fixpoint collapse_runs (in_run : bool) (s : string) : string :=
  match s with
  | EmptyString => EmptyString
  | String c s' =>
      if slug_char c then String c (collapse_runs false s')
      else if in_run then collapse_runs true s'
      else String "_" (collapse_runs true s')
  end.

(** "Strip a single leading and/or trailing _" *)
Definition strip_leading (s : string) : string :=
  match s with
  | String c s' => if is_underscore c then s' else s
  | EmptyString => EmptyString
  end.

Fixpoint strip_trailing (s : string) : string :=
  match s with
  | EmptyString => EmptyString
  | String c EmptyString => if is_underscore c then EmptyString else s
  | String c s' => String c (strip_trailing s')
  end.

(** Steps 1 to 4 of the filename algorithm. *)
Definition slug (query : string) : string :=
  take 50 (strip_trailing (strip_leading (collapse_runs false (toLowerCase query)))).

(** Step 5, as written: the format, or the literal image if the format
    is absent. *)
Definition format_part (format : option string) : string :=
  match format with
  | Some f => f
  | None => "image"
  end.

Definition filename (query : string) (format : option string)
    (uuid : string) : string :=
  slug query +:+ "_" +:+ format_part format +:+ "_" +:+ take 8 uuid +:+ ".png".



(** "style: style or default", as written: the style, or the literal
    default when the style is absent. *)
Definition style_part (style : option string) : string :=
  match style with
  | Some s => s
  | None => "default"
  end.

End Spec.

(** ** Terms of the statements

    Notions the properties below are stated with: how optional fields of
    a request are passed to the source, what the source does where the
    specification is silent, and the observations made of a run. *)

Module Terms.
Import JsString Js Sys Http Spec.

(** Step 5, as the source has it: an empty format counts as absent. *)
Definition format_part_or_empty (format : option string) : string :=
  match format with
  | Some f => if String.eqb f EmptyString then "image" else f
  | None => "image"
  end.

Definition filename_or_empty (query : string) (format : option string)
    (uuid : string) : string :=
  slug query +:+ "_" +:+ format_part_or_empty format +:+ "_" +:+ take 8 uuid
    +:+ ".png".

(** What is left of a string after its leading run of characters
    outside [a-z0-9]. *)
Fixpoint skip_run (s : string) : string :=
  match s with
  | String c s' => if slug_char c then s else skip_run s'
  | EmptyString => EmptyString
  end.

(** "Already-lowercased, already-underscored,
    non-leading/trailing-underscore": every character is in [a-z0-9] or
    is an underscore, no two underscores are adjacent, and neither the
    first nor the last character is an underscore. *)
Definition slug_or_underscore (c : ascii) : bool :=
  slug_char c || is_underscore c.

Definition starts_with_underscore (s : string) : bool :=
  match s with
  | String c _ => is_underscore c
  | EmptyString => false
  end.

Fixpoint ends_with_underscore (s : string) : bool :=
  match s with
  | EmptyString => false
  | String c EmptyString => is_underscore c
  | String _ s' => ends_with_underscore s'
  end.

Fixpoint adjacent_underscores (s : string) : bool :=
  match s with
  | EmptyString => false
  | String c s' =>
      (is_underscore c && starts_with_underscore s') || adjacent_underscores s'
  end.

(** The textual form of a version 4 identifier:
    xxxxxxxx-xxxx-4xxx-yxxx-xxxxxxxxxxxx, x a lower-case hexadecimal digit
    and y one of 8, 9, a, b. *)
Definition hex_digit (c : ascii) : bool :=
  in_range "0" "9" c || in_range "a" "f" c.

Definition is_uuid_v4 (s : string) : bool :=
  (String.length s =? 36)%nat
  && all_chars hex_digit (substring 0 8 s)
  && String.eqb (substring 8 9 s) "-"
  && all_chars hex_digit (substring 9 13 s)
  && String.eqb (substring 13 15 s) "-4"
  && all_chars hex_digit (substring 15 18 s)
  && String.eqb (substring 18 19 s) "-"
  && existsb (String.eqb (substring 19 20 s)) ["8"; "9"; "a"; "b"]
  && all_chars hex_digit (substring 20 23 s)
  && String.eqb (substring 23 24 s) "-"
  && all_chars hex_digit (substring 24 36 s).

(** An optional string field of a request, as a JavaScript value. *)
Definition js_of (field : option string) : value :=
  match field with
  | Some s => Str s
  | None => Undefined
  end.







(** The same, as the source has it: an empty style counts as absent. *)
Definition style_part_or_empty (style : option string) : string :=
  match style with
  | Some s => if String.eqb s EmptyString then "default" else s
  | None => "default"
  end.

(** An optional boolean field of a request, as a JavaScript value. *)
Definition js_of_bool (field : option bool) : value :=
  match field with
  | Some b => Bool b
  | None => Undefined
  end.

(** The prompt sent for a query: the query, followed by
    " with transparent background" when transparency is asked for. *)
Definition prompt_for (query : value) (transparent : value) : value :=
  if truthy (default_to transparent (Bool true))
  then Str (to_string query +:+ " with transparent background")
  else query.

(** A computation that leaves the rate limiter's counters alone. *)
Definition keeps_windows {A} (m : M A) : Prop :=
  forall w, windows (snd (m w)) = windows w.

(** A computation that returns, whatever the world. *)
Definition returns {A} (m : M A) : Prop :=
  forall w, exists a w', m w = (Return a, w').

(** What follows the rate limiter on the route: validation, then the
    controller. *)
Definition after_limiter (env : Env) (config : value) (body : value)
    : M Response :=
  ValidateRequest.validateGenerateRequest config body
    (AssetController.generateAsset env config body).

(** Two calls of generateFilename with the same inputs, one after the
    other. *)
Definition two_calls (env : Env) (query format : value)
    : M (string * string) :=
  first ← AssetService.generateFilename env query format;
  second ← AssetService.generateFilename env query format;
  mret (first, second).

(** The response to a request over the quota. *)
Definition rate_limited : Response :=
  {| statusCode := 429;
     json := ErrorJson "Too many requests, please try again later." |}.

(** The response of a rejected request. *)
Definition rejection (msg : string) : Response :=
  {| statusCode := 400; json := ErrorJson msg |}.

(** The two placeholder images, byte by byte. *)
Definition transparent_pixel : Buffer.t :=
  Eval vm_compute in Buffer.from_base64 AssetService.transparent_png.

Definition white_pixel : Buffer.t :=
  Eval vm_compute in Buffer.from_base64 AssetService.white_png.

Definition placeholder (transparent : bool) : Buffer.t :=
  if transparent then transparent_pixel else white_pixel.

(** Where generateImage saves the image of a query, in a world. *)
Definition asset_path (env : Env) (query : string) (format : value)
    (w : World) : string :=
  path_join env (assetStorage_path env)
    (AssetService.filename_of query format (uuid_source env (drawn w))).

(** Whether saving a file at [filePath] fails in a world, and with which
    error: the directory is created when it is missing, then the file is
    written. *)
Definition disk_fault (env : Env) (w : World) (filePath : string)
    : option string :=
  let dir := path_dirname env filePath in
  if bool_decide (dir ∈ dirs w) || bool_decide (is_Some (files w !! dir))
  then write_fault env filePath
  else match mkdir_fault env dir with
       | Some msg => Some msg
       | None => write_fault env filePath
       end.

End Terms.


(** ** The validation rules, as a list

    The specification describes validation as an ordered list of rules of
    which the first that fails decides the answer.  The conditions below are
    the ones the source tests (a field counts as present when it is
    truthy); the order and the first-failure policy are the
    specification's. *)

Module Rules.
Import JsString Js Sys Http ConfigService.

(** A rule: what it requires of the body, given the stored
    configuration, and the message of its failure. *)
Record Rule : Type := {
  holds : value -> value -> bool;
  failure : string;
}.

Definition query_present : Rule :=
  {| holds := fun _ body => truthy (get body "query");
     failure := "Missing required field: query" |}.

Definition type_present : Rule :=
  {| holds := fun _ body => truthy (get body "type");
     failure := "Missing required field: type" |}.

Definition type_is_image : Rule :=
  {| holds := fun _ body => strict_eq (get body "type") (Str "image");
     failure := "Unsupported asset type. Currently only " +:+ dquote +:+ "image"
                +:+ dquote +:+ " is supported." |}.

Definition format_in_enum : Rule :=
  {| holds := fun _ body =>
       negb (truthy (get body "format"))
       || includes ["sprite"; "icon"; "component"] (get body "format");
     failure := "Unsupported format. Supported formats are: sprite, icon, component" |}.

Definition api_key_resolvable : Rule :=
  {| holds := fun config body =>
       let effectiveProvider :=
         or_else (get body "provider") (getDefaultProvider config) in
       truthy (get body "api_key")
       || truthy (getDefaultApiKey config effectiveProvider);
     failure := "Missing required field: api_key. You must provide your own API key or configure one using the CLI." |}.

Definition provider_in_enum : Rule :=
  {| holds := fun _ body =>
       negb (truthy (get body "provider"))
       || includes ["openai"; "stability"; "replicate"] (get body "provider");
     failure := "Unsupported provider. Supported providers are: openai, stability, replicate" |}.

Definition transparent_boolean : Rule :=
  {| holds := fun _ body =>
       strict_eq (get body "transparent") Undefined
       || String.eqb (typeof (get body "transparent")) "boolean";
     failure := "Invalid value for transparent. Must be a boolean (true or false)." |}.

(** "Rules, in order". *)
Definition rules : list Rule :=
  [query_present; type_present; type_is_image; format_in_enum;
   api_key_resolvable; provider_in_enum; transparent_boolean].

(** "First failure wins - no accumulation": the failure of the first rule
    of the list that does not hold, if there is one. *)
Definition first_failure (config body : value) : option string :=
  failure <$> head (filter (fun r => holds r config body = false) rules).

(** Every failure of every rule that does not hold, for comparison. *)
Definition all_failures (config body : value) : list string :=
  failure <$> filter (fun r => holds r config body = false) rules.

End Rules.

(** ** Sample environments and requests *)

Module Sample.
Import Js Sys Http.

Definition world0 : World :=
  {| outbound := []; files := ∅; dirs := ∅; drawn := 0; windows := ∅ |}.

Definition uuids (i : nat) : string :=
  match i with
  | 0%nat => "1b9d6bcd-bbfd-4b2d-9b5d-ab8dfbbd4bed"
  | 1%nat => "1b9d6bcd-0c4e-4f6a-8d21-5e7a9c3b1f02"
  | _ => "7c9e6679-7425-40de-944b-e07fc1f90ae7"
  end.

(** An environment in which the provider answers with one image, the
    disk accepts every operation, and the first two identifiers drawn
    are distinct but share their first 8 characters. *)
Definition env0 : Env :=
  {| post_reply := fun _ _ _ _ =>
       Answer (Some {| data := Some [{| url := "https://images.example/1.png" |}] |});
     get_reply := fun _ _ => Answer [Byte.x89; Byte.x50; Byte.x4e; Byte.x47];
     mkdir_fault := fun _ => None;
     write_fault := fun _ => None;
     uuid_source := uuids;
     path_join := fun dir name => dir +:+ "/" +:+ name;
     path_dirname := fun _ => "generated-assets";
     assetStorage_path := "generated-assets";
     rateLimit_windowMs := 60000;
     rateLimit_max := 10 |}.

(** The same environment, with a quota of two requests per minute. *)
Definition two_per_minute : Env :=
  {| post_reply := post_reply env0;
     get_reply := get_reply env0;
     mkdir_fault := mkdir_fault env0;
     write_fault := write_fault env0;
     uuid_source := uuid_source env0;
     path_join := path_join env0;
     path_dirname := path_dirname env0;
     assetStorage_path := assetStorage_path env0;
     rateLimit_windowMs := 60000;
     rateLimit_max := 2 |}.

(** Requests of two clients. *)
Definition request (client : string) (time : Z) : AssetRoutes.Request :=
  {| AssetRoutes.ip := client; AssetRoutes.now := time;
     AssetRoutes.body :=
       Obj 4 [("query", Str "a carrot"); ("type", Str "image");
              ("api_key", Str "sk-test"); ("provider", Str "replicate")] |}.

(** A world in which the client 10.0.0.7 has used up the window that
    started at time 0. *)
Definition exhausted : World :=
  set_windows {[ "10.0.0.7" := {| count := 5; windowStart := 0 |} ]} world0.

(** The same environment, with a provider that answers every call with
    [reply]. *)
Definition answering (reply : Reply (option ImagesBody)) : Env :=
  {| post_reply := fun _ _ _ _ => reply;
     get_reply := get_reply env0;
     mkdir_fault := mkdir_fault env0;
     write_fault := write_fault env0;
     uuid_source := uuid_source env0;
     path_join := path_join env0;
     path_dirname := path_dirname env0;
     assetStorage_path := assetStorage_path env0;
     rateLimit_windowMs := rateLimit_windowMs env0;
     rateLimit_max := rateLimit_max env0 |}.

Definition unauthorized : Reply (option ImagesBody) :=
  Failure (AxiosError "Request failed with status code 401"
             (Some (401%Z,
                    Document (Some {| message := Some "Incorrect API key provided" |})))).






(** What a computation returned, if it did. *)
Definition returned {A} (r : Outcome A * World) : option A :=
  match fst r with
  | Return a => Some a
  | Throw _ => None
  end.

(** The answer to the request of the README, in [env0]. *)
Definition carrot_asset : GeneratedAsset :=
  {| status := "success";
     file_path := "generated-assets/pixelated_sprite_component_of_a_carrot_sprite_1b9d6bcd.png";
     file_name := "pixelated_sprite_component_of_a_carrot_sprite_1b9d6bcd.png";
     meta := {| Meta.format := "png";
                Meta.style := Str "default";
                Meta.dimensions := "256x256";
                Meta.transparent := Bool true;
                Meta.query := Str "Pixelated sprite component of a carrot" |} |}.

(** A JSON.parse that only knows the documents of this module. *)
Definition stored : value :=
  Obj 1 [("provider", Str "openai"); ("apiKey", Str "sk-configured");
         ("storagePath", Str "./generated-assets")].

Definition parse (text : string) : option value :=
  if String.eqb text "null" then Some Null
  else if String.eqb text "{ stored }" then Some stored
  else None.

(** A request whose format is present and empty. *)
Definition empty_format_body : value :=
  Obj 5 [("query", Str "A carrot!"); ("type", Str "image");
         ("format", Str EmptyString); ("api_key", Str "sk-test");
         ("provider", Str "stability")].

(** A request without api_key whose provider is not a supported one. *)
Definition keyless_body : value :=
  Obj 2 [("query", Str "a carrot"); ("type", Str "image");
         ("format", Str "sprite"); ("provider", Str "midjourney")].

(** A request without api_key for a provider other than the stored one. *)
Definition stability_body : value :=
  Obj 3 [("query", Str "a carrot"); ("type", Str "image");
         ("provider", Str "stability"); ("transparent", Bool false)].

End Sample.

(** ** Further terms: file names, and environments that fail *)

Module Cases.
Import JsString Js Sys Http.

(** The characters a generated file name is made of: [a-z0-9], the
    underscore and the dot. *)
Definition name_char (c : ascii) : bool :=
  Spec.slug_char c || Spec.is_underscore c || Ascii.eqb c ".".

(** An ASCII character that is neither a letter nor a digit. *)
Definition ascii_symbol (c : ascii) : bool :=
  (code c <? 128)%nat
  && negb (in_range "a" "z" c || in_range "A" "Z" c || in_range "0" "9" c).

(** null and undefined, which have no properties to read. *)
Definition nullish (v : value) : bool :=
  match v with
  | Undefined | Null => true
  | _ => false
  end.

(** An environment like [Sample.env0] in which the provider answers every
    call with [post], every download ends as [download], and writing a
    file fails with [disk] when it is an error. *)
Definition env_with (post : Reply (option ImagesBody)) (download : Reply Buffer.t)
    (disk : option string) : Env :=
  {| post_reply := fun _ _ _ _ => post;
     get_reply := fun _ _ => download;
     mkdir_fault := mkdir_fault Sample.env0;
     write_fault := fun _ => disk;
     uuid_source := uuid_source Sample.env0;
     path_join := path_join Sample.env0;
     path_dirname := path_dirname Sample.env0;
     assetStorage_path := assetStorage_path Sample.env0;
     rateLimit_windowMs := rateLimit_windowMs Sample.env0;
     rateLimit_max := rateLimit_max Sample.env0 |}.

Definition one_image : Reply (option ImagesBody) :=
  Answer (Some {| data := Some [{| url := "https://images.example/1.png" |};
                               {| url := "https://images.example/2.png" |}] |}).

Definition png_bytes : Buffer.t := [Byte.x89; Byte.x50; Byte.x4e; Byte.x47].



(** The call generateImage makes to the provider for a query. *)
Definition provider_call (query api_key transparent : value) : HttpCall :=
  Post AssetService.images_endpoint
    (AssetService.images_request (Terms.prompt_for query transparent))
    ("Bearer " +:+ to_string api_key).

(** The arguments the controller passes to generateAsset. *)
Definition service_call (env : Env) (config body : value) : M GeneratedAsset :=
  AssetService.generateAsset env config
    (get body "query") (get body "type") (get body "format") (get body "style")
    (get body "api_key") (get body "provider") (get body "transparent").

(** The provider a request is served with, and the key it is served with:
    its own, or those of the stored configuration. *)
Definition effective_provider (config body : value) : value :=
  or_else (get body "provider") (ConfigService.getDefaultProvider config).

Definition effective_key (config body : value) : value :=
  or_else (get body "api_key")
    (ConfigService.getDefaultApiKey config (effective_provider config body)).

(** The answer of the controller to a failure. *)
Definition failure_response (code : Z) (message details : string) : Response :=
  {| statusCode := code; json := ErrorDetailsJson message details |}.

(** A complete request for the openai provider. *)
Definition openai_body : value :=
  Obj 8 [("query", Str "a carrot"); ("type", Str "image");
         ("api_key", Str "sk-test"); ("provider", Str "openai")].

(** A request whose query is a number. *)
Definition numeric_query_body : value :=
  Obj 9 [("query", Num 42); ("type", Str "image"); ("api_key", Str "sk-test")].

(** A request that leaves the provider and the key to the configuration. *)
Definition bare_body : value :=
  Obj 10 [("query", Str "a carrot"); ("type", Str "image")].

(** A configuration file that stores a key and no provider. *)
Definition key_only_config : value :=
  Obj 11 [("apiKey", Str "sk-configured")].

(** An upstream refusal whose body is the JSON document null. *)
Definition null_refusal : Reply (option ImagesBody) :=
  Failure (AxiosError "Request failed with status code 400"
             (Some (400%Z, NullBody))).


End Cases.

(** * Properties *)

(** ** The regular expressions of generateFilename *)

Section RegexFacts.
Import JsString Regex Filename.

Lemma class_non_alnum c :
  class_matches true [("a", "z"); ("0", "9")]%char c = negb (Spec.slug_char c).
Proof.
  unfold class_matches, Spec.slug_char. simpl. now rewrite orb_false_r.
Qed.

Lemma skip_run_length s : (String.length (Terms.skip_run s) <= String.length s)%nat.
Proof.
  induction s as [|c s IH]; simpl; [lia|].
  destruct (Spec.slug_char c); simpl; lia.
Qed.

Lemma non_alnum_step b c s :
  rmatch (Class true [("a", "z"); ("0", "9")]%char) (b, String c s)
  = if Spec.slug_char c then [] else [(false, s)].
Proof.
  cbn [rmatch snd]. rewrite class_non_alnum.
  now destruct (Spec.slug_char c).
Qed.

Lemma rmatch_plus r cur :
  rmatch (Plus r) cur
  = flat_map (star_iter (rmatch r) (String.length (snd cur))) (rmatch r cur).
Proof. reflexivity. Qed.

(** The greedy iteration first reports the end of the whole run. *)
Lemma star_iter_longest s :
  forall fuel, (String.length s <= fuel)%nat ->
    exists rest,
      star_iter (rmatch (Class true [("a", "z"); ("0", "9")]%char)) fuel (false, s)
      = (false, Terms.skip_run s) :: rest.
Proof.
  induction s as [|c s IH]; intros fuel Hfuel.
  - destruct fuel; simpl; eauto.
  - destruct fuel as [|fuel]; [simpl in Hfuel; lia|].
    cbn [star_iter]. rewrite non_alnum_step. cbn [Terms.skip_run].
    destruct (Spec.slug_char c) eqn:Hc.
    + simpl. eauto.
    + cbn [flat_map snd]. simpl in Hfuel.
      replace (String.length s <? String.length (String c s))%nat with true
        by (symmetry; apply Nat.ltb_lt; simpl; lia).
      destruct (IH fuel ltac:(lia)) as [rest Hrest].
      rewrite Hrest. simpl. eauto.
Qed.

Lemma non_alnum_match b s :
  match s with
  | String c s' =>
      if Spec.slug_char c then rmatch re_non_alnum (b, s) = []
      else exists rest, rmatch re_non_alnum (b, s) = (false, Terms.skip_run s') :: rest
  | EmptyString => rmatch re_non_alnum (b, s) = []
  end.
Proof.
  destruct s as [|c s']; [reflexivity|].
  unfold re_non_alnum. rewrite rmatch_plus, non_alnum_step. cbn [snd].
  destruct (Spec.slug_char c) eqn:Hc; [reflexivity|].
  cbn [flat_map].
  destruct (star_iter_longest s' (String.length (String c s')) ltac:(simpl; lia))
    as [rest Hrest].
  rewrite Hrest. simpl. eauto.
Qed.

(** Dropping the rest of a match is done character by character. *)
Lemma replace_scan_skip r rep s :
  forall k, (k <= String.length s)%nat ->
    forall b, replace_scan r rep k b s = replace_scan r rep 0 false (drop k s)
           \/ k = 0%nat.
Proof.
  induction s as [|c s IH]; intros k Hk b.
  - right. simpl in Hk. lia.
  - destruct k as [|k]; [now right|]. left. simpl in Hk.
    cbn [replace_scan drop].
    destruct (IH k ltac:(lia) false) as [H|H]; [exact H|].
    subst k. now destruct s.
Qed.

Lemma drop_run s :
  drop (String.length s - String.length (Terms.skip_run s)) s = Terms.skip_run s.
Proof.
  induction s as [|c s IH]; [reflexivity|].
  cbn [Terms.skip_run]. destruct (Spec.slug_char c).
  - now rewrite Nat.sub_diag.
  - pose proof (skip_run_length s).
    replace (String.length (String c s) - String.length (Terms.skip_run s))%nat
      with (S (String.length s - String.length (Terms.skip_run s))) by (simpl; lia).
    exact IH.
Qed.

Lemma collapse_in_run s :
  Spec.collapse_runs true s = Spec.collapse_runs false (Terms.skip_run s).
Proof.
  induction s as [|c s IH]; [reflexivity|].
  cbn [Spec.collapse_runs Terms.skip_run].
  destruct (Spec.slug_char c) eqn:Hc; [|exact IH].
  cbn [Spec.collapse_runs]. now rewrite Hc.
Qed.

(** replace(/[^a-z0-9]+/g, '_') turns each maximal run into one
    underscore. *)
Lemma replace_non_alnum s :
  replace_all re_non_alnum "_" s = Spec.collapse_runs false s.
Proof.
  unfold replace_all.
  enough (H : forall len s, (String.length s <= len)%nat ->
              forall b, replace_scan re_non_alnum "_" 0 b s
                        = Spec.collapse_runs false s)
    by (apply (H (String.length s)); lia).
  clear s. induction len as [|len IH]; intros s Hle b.
  - destruct s; [reflexivity|simpl in Hle; lia].
  - destruct s as [|c s]; [reflexivity|]. simpl in Hle.
    pose proof (non_alnum_match b (String c s)) as Hm. cbn beta iota in Hm.
    cbn [replace_scan Spec.collapse_runs].
    destruct (Spec.slug_char c) eqn:Hc.
    + rewrite Hm. f_equal. apply IH. lia.
    + destruct Hm as [rest ->]. cbn [snd].
      pose proof (skip_run_length s) as Hrun.
      replace (String.length (String c s) - String.length (Terms.skip_run s))%nat
        with (S (String.length s - String.length (Terms.skip_run s))) by (simpl; lia).
      change ("_" +:+ ?x) with (String "_" x). f_equal.
      rewrite collapse_in_run.
      destruct (replace_scan_skip re_non_alnum "_" s
                  (String.length s - String.length (Terms.skip_run s)) ltac:(lia) false)
        as [H|H].
      * rewrite H, drop_run. apply IH. lia.
      * rewrite H. rewrite <- (drop_run s), H. simpl drop.
        replace (drop 0 s) with s by now destruct s.
        apply IH. lia.
Qed.

Lemma edge_match b s :
  rmatch re_edge_underscore (b, s)
  = match s with
    | String c s' =>
        ((if b && Spec.is_underscore c then [(false, s')] else [])
         ++ (if Spec.is_underscore c
             then match s' with EmptyString => [(false, s')] | _ => [] end
             else []))%list
    | EmptyString => []
    end.
Proof.
  unfold re_edge_underscore, Spec.is_underscore. cbn [rmatch fst snd].
  destruct s as [|c s'].
  - now destruct b.
  - rewrite (Ascii.eqb_sym c "_"%char).
    destruct b; cbn [flat_map andb app rmatch snd];
      destruct (Ascii.eqb "_" c); cbn [flat_map app rmatch snd];
      try reflexivity; now destruct s'.
Qed.

Lemma replace_edge_inner s :
  replace_scan re_edge_underscore EmptyString 0 false s = Spec.strip_trailing s.
Proof.
  induction s as [|c s IH]; [reflexivity|].
  cbn [replace_scan]. rewrite edge_match. cbn [andb app].
  cbn [Spec.strip_trailing].
  destruct (Spec.is_underscore c) eqn:Hc.
  - destruct s as [|c' s']; [reflexivity|]. now rewrite IH.
  - rewrite IH. now destruct s.
Qed.

(** replace(/^_|_$/g, '') strips one leading and one trailing
    underscore. *)
Lemma replace_edge s :
  replace_all re_edge_underscore EmptyString s
  = Spec.strip_trailing (Spec.strip_leading s).
Proof.
  unfold replace_all. destruct s as [|c s]; [reflexivity|].
  cbn [replace_scan]. rewrite edge_match. cbn [andb Spec.strip_leading].
  destruct (Spec.is_underscore c) eqn:Hc.
  - cbn [app snd].
    replace (String.length (String c s) - String.length s)%nat with 1%nat
      by (simpl; lia).
    simpl append. apply replace_edge_inner.
  - cbn [app]. rewrite replace_edge_inner.
    cbn [Spec.strip_trailing]. rewrite Hc. now destruct s.
Qed.

Lemma substring_from_0 k s : substring 0 k s = take k s.
Proof. unfold substring. rewrite Nat.sub_0_r. now destruct s. Qed.

(** The slug of the source is the slug of the specification. *)
Lemma slug_refines query : Filename.slug query = Spec.slug query.
Proof.
  unfold Filename.slug, Spec.slug.
  now rewrite substring_from_0, replace_non_alnum, replace_edge.
Qed.

End RegexFacts.

(** ** Filenames *)

Section FilenameFacts.
Import JsString Js Sys.

Lemma format_or_image format :
  to_string (or_else (Terms.js_of format) (Str "image"))
  = Terms.format_part_or_empty format.
Proof.
  destruct format as [f|]; [|reflexivity].
  unfold or_else, Terms.js_of, Terms.format_part_or_empty, truthy.
  now destruct (String.eqb f EmptyString).
Qed.

Lemma generateFilename_run env query format w :
  AssetService.generateFilename env (Str query) format w
  = (Return (AssetService.filename_of query format (uuid_source env (drawn w))),
     set_drawn (S (drawn w)) w).
Proof. reflexivity. Qed.

(** C1, as stated, fails: for a format that is present and empty, which
    validation lets through, the source appends [image], where the
    algorithm of the specification appends the (empty) format. *)
Lemma generateFilename_empty_format_differs :
  Rules.first_failure ConfigService.fallback Sample.empty_format_body = None
  /\ get Sample.empty_format_body "format" = Terms.js_of (Some EmptyString)
  /\ fst (AssetService.generateFilename Sample.env0 (Str "A carrot!")
            (Terms.js_of (Some EmptyString)) Sample.world0)
     = Return "a_carrot_image_1b9d6bcd.png"
  /\ Spec.filename "A carrot!" (Some EmptyString)
       (uuid_source Sample.env0 (drawn Sample.world0))
     = "a_carrot__1b9d6bcd.png"
  /\ fst (AssetService.generateFilename Sample.env0 (Str "A carrot!")
            (Terms.js_of (Some EmptyString)) Sample.world0)
     <> Return (Spec.filename "A carrot!" (Some EmptyString)
                  (uuid_source Sample.env0 (drawn Sample.world0))).
Proof.
  split; [reflexivity|]. split; [reflexivity|]. split; [reflexivity|].
  split; [reflexivity|discriminate].
Qed.

Lemma take_length k s : String.length (take k s) = Nat.min k (String.length s).
Proof.
  revert s. induction k as [|k IH]; intros [|c s]; simpl; auto.
Qed.

Lemma uuid_prefix_is_hex uuid :
  Terms.is_uuid_v4 uuid = true ->
  all_chars Terms.hex_digit (take 8 uuid) = true
  /\ String.length (take 8 uuid) = 8%nat.
Proof.
  unfold Terms.is_uuid_v4. intros H.
  do 9 (apply andb_prop in H as [H _]).
  apply andb_prop in H as [Hlen Hhex].
  apply Nat.eqb_eq in Hlen. rewrite substring_from_0 in Hhex.
  split; [exact Hhex|]. rewrite take_length, Hlen. reflexivity.
Qed.

(** C1, amended: for every query string and optional format, the
    generated filename is the query lower-cased, with every maximal run of
    characters outside [a-z0-9] replaced by one underscore, one leading
    and one trailing underscore stripped, truncated to 50 characters,
    followed by an underscore, the format (or [image] when the format is
    absent or empty), an underscore, the first 8 characters of a freshly
    drawn identifier (8 hexadecimal digits, for a version 4 identifier),
    and [.png]. *)
Theorem generateFilename_follows_algorithm env query format w :
  AssetService.generateFilename env (Str query) (Terms.js_of format) w
  = (Return (Terms.filename_or_empty query format (uuid_source env (drawn w))),
     set_drawn (S (drawn w)) w)
  /\ (Terms.is_uuid_v4 (uuid_source env (drawn w)) = true ->
      all_chars Terms.hex_digit (take 8 (uuid_source env (drawn w))) = true
      /\ String.length (take 8 (uuid_source env (drawn w))) = 8%nat).
Proof.
  split; [|apply uuid_prefix_is_hex].
  rewrite generateFilename_run. do 2 f_equal.
  unfold AssetService.filename_of, Terms.filename_or_empty.
  rewrite slug_refines, substring_from_0.
  now rewrite format_or_image.
Qed.

Lemma generateFilename_follows_algorithm_witness :
  fst (AssetService.generateFilename Sample.env0
         (Str "Pixelated sprite component of a carrot")
         (Terms.js_of (Some "sprite")) Sample.world0)
  = Return "pixelated_sprite_component_of_a_carrot_sprite_1b9d6bcd.png"
  /\ all_chars Terms.hex_digit "1b9d6bcd" = true.
Proof.
  destruct (generateFilename_follows_algorithm Sample.env0
              "Pixelated sprite component of a carrot" (Some "sprite")
              Sample.world0) as [Hname Hhex].
  split.
  - rewrite Hname. reflexivity.
  - apply Hhex. reflexivity.
Defined.

(** *** Re-slugging a slug *)

Lemma slug_char_not_upper c :
  Terms.slug_or_underscore c = true -> lower_char c = c.
Proof.
  unfold Terms.slug_or_underscore, Spec.slug_char, Spec.is_underscore,
    lower_char, in_range, code.
  intros H.
  destruct ((nat_of_ascii "A" <=? nat_of_ascii c)%nat
            && (nat_of_ascii c <=? nat_of_ascii "Z")%nat) eqn:Hup; [|reflexivity].
  exfalso. change (nat_of_ascii "A") with 65%nat in Hup.
  change (nat_of_ascii "Z") with 90%nat in Hup.
  change (nat_of_ascii "a") with 97%nat in H.
  change (nat_of_ascii "z") with 122%nat in H.
  change (nat_of_ascii "0") with 48%nat in H.
  change (nat_of_ascii "9") with 57%nat in H.
  apply andb_prop in Hup as [H1 H2].
  apply Nat.leb_le in H1, H2.
  apply orb_prop in H as [H|H].
  - apply orb_prop in H as [H|H]; apply andb_prop in H as [H3 H4];
      apply Nat.leb_le in H3, H4; lia.
  - apply Ascii.eqb_eq in H. subst c.
    change (nat_of_ascii "_") with 95%nat in H2. lia.
Qed.

Lemma toLowerCase_fixed x :
  all_chars Terms.slug_or_underscore x = true -> toLowerCase x = x.
Proof.
  induction x as [|c x IH]; [reflexivity|]. cbn [all_chars toLowerCase].
  intros [Hc Hx]%andb_prop. now rewrite slug_char_not_upper, IH.
Qed.

Lemma collapse_started x :
  Terms.starts_with_underscore x = false ->
  all_chars Terms.slug_or_underscore x = true ->
  Spec.collapse_runs true x = Spec.collapse_runs false x.
Proof.
  destruct x as [|c x]; [reflexivity|].
  cbn [Terms.starts_with_underscore all_chars Spec.collapse_runs].
  unfold Terms.slug_or_underscore. intros -> [Hc _]%andb_prop.
  rewrite orb_false_r in Hc. now rewrite Hc.
Qed.

Lemma collapse_fixed x :
  all_chars Terms.slug_or_underscore x = true ->
  Terms.adjacent_underscores x = false ->
  Spec.collapse_runs false x = x.
Proof.
  induction x as [|c x IH]; [reflexivity|].
  cbn [all_chars Terms.adjacent_underscores Spec.collapse_runs].
  intros [Hc Hx]%andb_prop [Hadj Hrest]%orb_false_elim.
  destruct (Spec.slug_char c) eqn:Hs.
  - now rewrite IH.
  - unfold Terms.slug_or_underscore in Hc. rewrite Hs in Hc. simpl in Hc.
    rewrite Hc in Hadj. simpl in Hadj.
    rewrite collapse_started, IH by assumption.
    unfold Spec.is_underscore in Hc. apply Ascii.eqb_eq in Hc. now subst c.
Qed.

Lemma strip_leading_fixed x :
  Terms.starts_with_underscore x = false -> Spec.strip_leading x = x.
Proof. destruct x as [|c x]; [reflexivity|]. simpl. now intros ->. Qed.

Lemma strip_trailing_fixed x :
  Terms.ends_with_underscore x = false -> Spec.strip_trailing x = x.
Proof.
  induction x as [|c x IH]; [reflexivity|].
  cbn [Terms.ends_with_underscore Spec.strip_trailing].
  destruct x as [|c' x']; [now intros ->|].
  intros H. now rewrite IH.
Qed.

Lemma take_all k x : (String.length x <= k)%nat -> take k x = x.
Proof.
  revert k. induction x as [|c x IH]; intros [|k] Hk; simpl in *;
    try reflexivity; try lia.
  now rewrite IH by lia.
Qed.

(** C7: a string that is already lower-case, made of [a-z0-9] and single
    underscores, without a leading or trailing underscore and of at most
    50 characters, is its own slug. *)
Theorem slug_of_slug_is_noop x :
  all_chars Terms.slug_or_underscore x = true ->
  Terms.adjacent_underscores x = false ->
  Terms.starts_with_underscore x = false ->
  Terms.ends_with_underscore x = false ->
  (String.length x <= 50)%nat ->
  Filename.slug x = x.
Proof.
  intros Hchars Hadj Hlead Htrail Hlen.
  rewrite slug_refines. unfold Spec.slug.
  rewrite toLowerCase_fixed, collapse_fixed, strip_leading_fixed,
    strip_trailing_fixed by assumption.
  now apply take_all.
Qed.

Lemma slug_of_slug_is_noop_witness :
  Filename.slug "pixelated_sprite_component_of_a_carrot"
  = "pixelated_sprite_component_of_a_carrot".
Proof.
  apply slug_of_slug_is_noop; [reflexivity..|simpl; lia].
Defined.

(** *** Collisions *)

Lemma append_length a b :
  String.length (a +:+ b) = (String.length a + String.length b)%nat.
Proof. induction a as [|c a IH]; simpl; [reflexivity|now rewrite IH]. Qed.

Lemma append_inj_r s a b : a +:+ s = b +:+ s -> a = b.
Proof.
  revert b. induction a as [|c a IH]; intros [|d b] H.
  - reflexivity.
  - apply (f_equal String.length) in H.
    rewrite !append_length in H. simpl in H. lia.
  - apply (f_equal String.length) in H.
    rewrite !append_length in H. simpl in H. lia.
  - change (String c (a +:+ s) = String d (b +:+ s)) in H.
    injection H as -> H. f_equal. now apply IH.
Qed.

Lemma filename_of_eq query format u1 u2 :
  AssetService.filename_of query format u1
  = AssetService.filename_of query format u2
  <-> take 8 u1 = take 8 u2.
Proof.
  unfold AssetService.filename_of. rewrite !substring_from_0. split.
  - intros H. repeat apply String.app_inj in H. now apply append_inj_r in H.
  - now intros ->.
Qed.

(** C8, as stated, fails: two calls with the same query and format, each
    drawing its own well-formed identifier, the two identifiers distinct,
    return the same filename. *)
Lemma same_inputs_can_collide :
  fst (Terms.two_calls Sample.env0 (Str "carrot") (Str "sprite") Sample.world0)
  = Return ("carrot_sprite_1b9d6bcd.png", "carrot_sprite_1b9d6bcd.png")
  /\ Sample.uuids 0 <> Sample.uuids 1
  /\ Terms.is_uuid_v4 (Sample.uuids 0) = true
  /\ Terms.is_uuid_v4 (Sample.uuids 1) = true.
Proof. split; [reflexivity|split; [discriminate|split; reflexivity]]. Qed.

(** C8, amended: two calls to filename generation with identical query
    and format return different filenames exactly when the identifiers
    they draw differ in their first 8 characters; when those agree the
    two filenames are equal. *)
Theorem same_inputs_differ_by_suffix env query format w :
  exists first second,
    fst (Terms.two_calls env (Str query) format w) = Return (first, second)
    /\ (first <> second
        <-> take 8 (uuid_source env (drawn w))
            <> take 8 (uuid_source env (S (drawn w)))).
Proof.
  eexists _, _. split; [reflexivity|].
  now rewrite filename_of_eq.
Qed.

End FilenameFacts.

(** ** The stored configuration *)

Section ConfigFacts.
Import Js ConfigService.

Lemma fallback_defaults :
  getDefaultProvider fallback = Str "openai"
  /\ forall provider, getDefaultApiKey fallback provider = Null.
Proof.
  split; [reflexivity|]. intros provider. unfold getDefaultApiKey. simpl.
  now destruct (strict_eq provider (Str "openai")).
Qed.

(** C6: when the configuration file is absent, unreadable or not valid
    JSON, the store holds exactly provider openai, apiKey null and
    storagePath ./generated-assets; getDefaultProvider then returns openai
    and getDefaultApiKey returns null for every provider. *)
Theorem config_falls_back (JSON_parse : string -> option value)
    (file : ConfigFile) :
  file = NoFile
  \/ (exists reason, file = Unreadable reason)
  \/ (exists configData, file = Contents configData
                         /\ JSON_parse configData = None) ->
  loadConfig JSON_parse file
  = Obj 0 [("provider", Str "openai"); ("apiKey", Null);
           ("storagePath", Str "./generated-assets")]
  /\ getDefaultProvider (loadConfig JSON_parse file) = Str "openai"
  /\ forall provider,
       getDefaultApiKey (loadConfig JSON_parse file) provider = Null.
Proof.
  intros Hfile.
  assert (Hload : loadConfig JSON_parse file = fallback).
  { destruct Hfile as [->|[[reason ->]|[configData [-> Hparse]]]];
      [reflexivity..|]. unfold loadConfig. now rewrite Hparse. }
  rewrite Hload. split; [reflexivity|]. apply fallback_defaults.
Qed.

Lemma config_falls_back_witness :
  loadConfig Sample.parse (Contents "{ provider: ")
  = Obj 0 [("provider", Str "openai"); ("apiKey", Null);
           ("storagePath", Str "./generated-assets")]
  /\ getDefaultProvider (loadConfig Sample.parse (Contents "{ provider: "))
     = Str "openai"
  /\ forall provider,
       getDefaultApiKey (loadConfig Sample.parse (Contents "{ provider: "))
         provider = Null.
Proof.
  apply config_falls_back. right. right.
  exists "{ provider: ". split; reflexivity.
Defined.

Lemma getDefaultApiKey_cases config provider :
  getDefaultApiKey config provider
  = if truthy config && strict_eq provider (get config "provider")
    then get config "apiKey" else Null.
Proof.
  unfold getDefaultApiKey. now destruct (truthy config).
Qed.

Lemma no_stored_key_no_default config provider :
  truthy (get config "apiKey") = false ->
  truthy (getDefaultApiKey config provider) = false.
Proof.
  intros Hkey. rewrite getDefaultApiKey_cases.
  now destruct (truthy config && strict_eq provider (get config "provider")).
Qed.

End ConfigFacts.

(** ** Validation *)

Section ValidationFacts.
Import JsString Js Sys Http ConfigService ValidateRequest.

Lemma validate_first_failure config body next w :
  validateGenerateRequest config body next w
  = match Rules.first_failure config body with
    | Some msg => (Return (Terms.rejection msg), w)
    | None => next w
    end.
Proof.
  unfold validateGenerateRequest, Rules.first_failure, Rules.rules.
  rewrite !filter_cons, filter_nil. cbn [Rules.holds Rules.query_present
    Rules.type_present Rules.type_is_image Rules.format_in_enum
    Rules.api_key_resolvable Rules.provider_in_enum Rules.transparent_boolean].
  destruct (truthy (get body "query")); [|reflexivity].
  destruct (truthy (get body "type")); [|reflexivity].
  destruct (strict_eq (get body "type") (Str "image")); [|reflexivity].
  destruct (truthy (get body "format"));
    [destruct (includes ["sprite"; "icon"; "component"] (get body "format"));
     [|reflexivity]|];
    (destruct (truthy (get body "api_key"));
     [|destruct (truthy (getDefaultApiKey config
                            (or_else (get body "provider")
                               (getDefaultProvider config))));
       [|reflexivity]]);
    (destruct (truthy (get body "provider"));
     [destruct (includes ["openai"; "stability"; "replicate"] (get body "provider"));
      [|reflexivity]|]);
    destruct (strict_eq (get body "transparent") Undefined);
    try reflexivity;
    destruct (String.eqb (typeof (get body "transparent")) "boolean");
    reflexivity.
Qed.

Lemma first_failure_api_key config body :
  Rules.holds Rules.query_present config body = true ->
  Rules.holds Rules.type_present config body = true ->
  Rules.holds Rules.type_is_image config body = true ->
  Rules.holds Rules.format_in_enum config body = true ->
  Rules.holds Rules.api_key_resolvable config body = false ->
  Rules.first_failure config body = Some (Rules.failure Rules.api_key_resolvable).
Proof.
  intros H1 H2 H3 H4 H5. unfold Rules.first_failure, Rules.rules.
  rewrite !filter_cons, filter_nil.
  repeat (destruct (decide _) as [Hd|Hd]; [congruence|]; clear Hd).
  destruct (decide _) as [Hd|Hd]; [reflexivity|congruence].
Qed.

(** C3: validation applies its rules in the order query present, type
    present and equal to image, format in its enumeration, api key
    resolvable, provider in its enumeration, transparent boolean, and
    answers with the failure of the first rule that does not hold, without
    running what follows it.  In particular a body that passes the first
    rules and has no api_key, with no key configured, is answered with the
    missing api_key failure whatever its provider is, and the world is
    unchanged: no network call, no file written. *)
Theorem validation_first_failure_wins config body next w :
  validateGenerateRequest config body next w
  = match Rules.first_failure config body with
    | Some msg => (Return (Terms.rejection msg), w)
    | None => next w
    end
  /\ (Rules.holds Rules.query_present config body = true ->
      Rules.holds Rules.type_present config body = true ->
      Rules.holds Rules.type_is_image config body = true ->
      Rules.holds Rules.format_in_enum config body = true ->
      truthy (get body "api_key") = false ->
      truthy (get config "apiKey") = false ->
      validateGenerateRequest config body next w
      = (Return (Terms.rejection (Rules.failure Rules.api_key_resolvable)), w)).
Proof.
  split; [apply validate_first_failure|].
  intros H1 H2 H3 H4 Hkey Hstored.
  rewrite validate_first_failure, first_failure_api_key; try assumption;
    [reflexivity|].
  cbn [Rules.holds Rules.api_key_resolvable].
  now rewrite Hkey, no_stored_key_no_default.
Qed.

Lemma validation_first_failure_wins_witness :
  Rules.all_failures ConfigService.fallback Sample.keyless_body
  = [Rules.failure Rules.api_key_resolvable;
     Rules.failure Rules.provider_in_enum]
  /\ Terms.after_limiter Sample.env0 ConfigService.fallback Sample.keyless_body
       Sample.world0
     = (Return (Terms.rejection (Rules.failure Rules.api_key_resolvable)),
        Sample.world0).
Proof.
  split; [reflexivity|].
  apply (validation_first_failure_wins ConfigService.fallback
           Sample.keyless_body
           (AssetController.generateAsset Sample.env0 ConfigService.fallback
              Sample.keyless_body)
           Sample.world0); reflexivity.
Defined.

(** C10: getDefaultApiKey returns the stored key only for a provider
    strictly equal to the stored provider, and null for every other; so a
    request that names another provider and carries no api_key is answered
    with the missing api_key failure, whatever key is stored. *)
Theorem default_key_is_per_provider config :
  (forall provider,
     getDefaultApiKey config provider
     = if truthy config && strict_eq provider (get config "provider")
       then get config "apiKey" else Null)
  /\ (forall provider,
        strict_eq provider (get config "provider") = false ->
        getDefaultApiKey config provider = Null)
  /\ (forall body next w,
        Rules.holds Rules.query_present config body = true ->
        Rules.holds Rules.type_present config body = true ->
        Rules.holds Rules.type_is_image config body = true ->
        Rules.holds Rules.format_in_enum config body = true ->
        truthy (get body "provider") = true ->
        strict_eq (get body "provider") (get config "provider") = false ->
        truthy (get body "api_key") = false ->
        validateGenerateRequest config body next w
        = (Return (Terms.rejection (Rules.failure Rules.api_key_resolvable)), w)).
Proof.
  split; [apply getDefaultApiKey_cases|]. split.
  - intros provider Hne. rewrite getDefaultApiKey_cases, Hne.
    now rewrite andb_false_r.
  - intros body next w H1 H2 H3 H4 Hprov Hne Hkey.
    rewrite validate_first_failure, first_failure_api_key; try assumption;
      [reflexivity|].
    cbn [Rules.holds Rules.api_key_resolvable].
    unfold or_else. rewrite Hprov, Hkey, getDefaultApiKey_cases, Hne.
    now rewrite andb_false_r.
Qed.

Lemma default_key_is_per_provider_witness :
  truthy (get Sample.stored "apiKey") = true
  /\ Terms.after_limiter Sample.env0 Sample.stored Sample.stability_body
       Sample.world0
     = (Return (Terms.rejection (Rules.failure Rules.api_key_resolvable)),
        Sample.world0).
Proof.
  split; [reflexivity|].
  apply (default_key_is_per_provider Sample.stored); reflexivity.
Defined.

End ValidationFacts.

(** ** The asset service *)

Ltac run_monad :=
  cbv beta iota delta [mbind mret M_bind M_ret Sys.bind Sys.ret Sys.throw
                       Sys.try_catch].

Section ServiceFacts.
Import JsString Js Sys Http AssetService.

Lemma bind_returns {A B} (m : M A) (k : A -> M B) w b w' :
  (m ≫= k) w = (Return b, w') ->
  exists a w1, m w = (Return a, w1) /\ k a w1 = (Return b, w').
Proof.
  run_monad. destruct (m w) as [[a|e] w1]; [eauto|discriminate].
Qed.

(** saveImageToDisk, step by step. *)
Lemma saveImageToDisk_run env filePath imageData w :
  exists w1,
    files w1 = files w /\ outbound w1 = outbound w /\ drawn w1 = drawn w
    /\ windows w1 = windows w
    /\ saveImageToDisk env filePath imageData w
       = match Terms.disk_fault env w filePath with
         | None => (Return tt, set_files (<[ filePath := imageData ]> (files w)) w1)
         | Some msg => (Throw (Error ("Failed to save image: " +:+ msg)), w1)
         end.
Proof.
  unfold saveImageToDisk, Terms.disk_fault, fs_existsSync, fs_mkdirSync,
    fs_writeFileSync. run_monad.
  destruct (bool_decide (path_dirname env filePath ∈ dirs w)
            || bool_decide (is_Some (files w !! path_dirname env filePath)));
    cbn [negb].
  - exists w. repeat split; try reflexivity.
    now destruct (write_fault env filePath).
  - destruct (mkdir_fault env (path_dirname env filePath)).
    + exists w. now repeat split.
    + eexists (set_dirs _ w). repeat split; try reflexivity.
      now destruct (write_fault env filePath).
Qed.

Lemma stub_providers_not_openai provider :
  provider = Str "stability" \/ provider = Str "replicate" ->
  strict_eq provider (Str "openai") = false.
Proof. now intros [-> | ->]. Qed.

Lemma placeholder_bytes (transparent : bool) :
  getPlaceholderImageData (Bool transparent) = Terms.placeholder transparent.
Proof. now destruct transparent; vm_compute. Qed.

(** C2: for the providers stability and replicate, generation makes no
    outbound network call, and, the disk accepting the file, succeeds and
    writes a fixed 1x1 PNG: one byte sequence (with an alpha channel) when
    transparent is true, another (opaque) when it is false. *)
Theorem stub_providers_write_placeholder env provider query format style
    api_key (transparent : bool) w :
  provider = Str "stability" \/ provider = Str "replicate" ->
  outbound (snd (generateImage env (Str query) format style api_key provider
                   (Bool transparent) w)) = outbound w
  /\ (Terms.disk_fault env w (Terms.asset_path env query format w) = None ->
      exists asset w',
        generateImage env (Str query) format style api_key provider
          (Bool transparent) w = (Return asset, w')
        /\ file_path asset = Terms.asset_path env query format w
        /\ Meta.transparent (meta asset) = Bool transparent
        /\ files w'
           = <[ Terms.asset_path env query format w
                := Terms.placeholder transparent ]> (files w))
  /\ Terms.placeholder true <> Terms.placeholder false
  /\ Buffer.png_header (Terms.placeholder true) = Some (1, 1, 4)%N
  /\ Buffer.png_header (Terms.placeholder false) = Some (1, 1, 2)%N.
Proof.
  intros Hprov. apply stub_providers_not_openai in Hprov.
  unfold generateImage. rewrite Hprov. run_monad.
  rewrite generateFilename_run, placeholder_bytes.
  fold (Terms.asset_path env query format w).
  destruct (saveImageToDisk_run env (Terms.asset_path env query format w)
              (Terms.placeholder transparent) (set_drawn (S (drawn w)) w))
    as (w1 & Hfiles & Hout & _ & _ & ->).
  change (Terms.disk_fault env (set_drawn (S (drawn w)) w))
    with (Terms.disk_fault env w).
  split; [|split; [|split; [discriminate|split; reflexivity]]].
  - now destruct (Terms.disk_fault env w _).
  - intros ->. eexists _, _. split; [reflexivity|].
    split; [reflexivity|]. split; [reflexivity|]. cbn [files set_files].
    reflexivity.
Qed.

Lemma stub_providers_write_placeholder_witness :
  exists asset w',
    generateImage Sample.env0 (Str "a carrot") Undefined Undefined
      (Str "sk-test") (Str "stability") (Bool false) Sample.world0
    = (Return asset, w')
    /\ file_path asset = "generated-assets/a_carrot_image_1b9d6bcd.png"
    /\ Meta.transparent (meta asset) = Bool false
    /\ files w'
       = <[ "generated-assets/a_carrot_image_1b9d6bcd.png"
            := Terms.placeholder false ]> (files Sample.world0).
Proof.
  destruct (stub_providers_write_placeholder Sample.env0 (Str "stability")
              "a carrot" Undefined Undefined (Str "sk-test") false
              Sample.world0 (or_introl eq_refl)) as (_ & Hsaved & _).
  apply Hsaved. reflexivity.
Defined.






(** *** The value returned on success *)

Lemma generateFilename_returns env query format w name w1 :
  generateFilename env query format w = (Return name, w1) ->
  exists q, query = Str q
            /\ name = filename_of q format (uuid_source env (drawn w)).
Proof.
  destruct query; try discriminate.
  rewrite generateFilename_run. intros [= <- _]. eauto.
Qed.

Lemma generateImage_returns env query format style api_key provider
    transparent w asset w' :
  generateImage env query format style api_key provider transparent w
  = (Return asset, w')
  \/ PlaceholderService.generateImage env query format style api_key provider
       transparent w = (Return asset, w') ->
  exists q,
    query = Str q
    /\ asset
       = {| status := "success";
            file_path := path_join env (assetStorage_path env)
                           (filename_of q format (uuid_source env (drawn w)));
            file_name := filename_of q format (uuid_source env (drawn w));
            meta := {| Meta.format := "png";
                       Meta.style := or_else style (Str "default");
                       Meta.dimensions := "256x256";
                       Meta.transparent := transparent;
                       Meta.query := query |} |}.
Proof.
  intros [H|H].
  - unfold generateImage in H.
    apply bind_returns in H as (name & w1 & Hname & H).
    apply generateFilename_returns in Hname as (q & -> & ->).
    apply bind_returns in H as (imageData & w2 & _ & H).
    apply bind_returns in H as (? & w3 & _ & H).
    injection H as <- _. eauto.
  - unfold PlaceholderService.generateImage in H.
    apply bind_returns in H as (name & w1 & Hname & H).
    apply generateFilename_returns in Hname as (q & -> & ->).
    apply bind_returns in H as (? & w3 & _ & H).
    injection H as <- _. eauto.
Qed.

Lemma style_or_default style :
  or_else (Terms.js_of style) (Str "default")
  = Str (Terms.style_part_or_empty style).
Proof.
  destruct style as [s|]; [|reflexivity].
  unfold or_else, Terms.js_of, Terms.style_part_or_empty, truthy.
  now destruct (String.eqb s EmptyString).
Qed.

Lemma transparent_or_true transparent :
  default_to (Terms.js_of_bool transparent) (Bool true)
  = Bool (default true transparent).
Proof. now destruct transparent. Qed.

(** C5, as stated, fails: a request whose style is present but empty is
    answered with the style default, not with the style of the
    request. *)
Lemma empty_style_becomes_default :
  Meta.style <$> (meta <$> Sample.returned
    (generateAsset Sample.env0 ConfigService.fallback (Str "a carrot")
       (Str "image") (Str "icon") (Terms.js_of (Some EmptyString))
       (Str "sk-test") (Str "stability") (Terms.js_of_bool (Some true))
       Sample.world0))
  = Some (Str "default")
  /\ Str "default" <> Str (Spec.style_part (Some EmptyString)).
Proof. split; [vm_compute; reflexivity|discriminate]. Qed.

(** C5, amended: every successful generation returns exactly status
    success, file_path the join of the storage path with file_name,
    file_name the generated name, and meta with format png, style the
    style of the request or default when the style is absent or empty,
    dimensions 256x256, transparent the value of the request (true when
    the request omitted it), and query the query of the request. *)
Theorem successful_generation_result env config query type format
    (style : option string) api_key provider (transparent : option bool)
    w asset :
  fst (AssetService.generateAsset env config query type format
         (Terms.js_of style) api_key provider (Terms.js_of_bool transparent) w)
  = Return asset
  \/ fst (PlaceholderService.generateAsset env config query type format
            (Terms.js_of style) api_key provider (Terms.js_of_bool transparent) w)
     = Return asset ->
  exists q,
    query = Str q
    /\ asset
       = {| status := "success";
            file_path := path_join env (assetStorage_path env) (file_name asset);
            file_name := filename_of q format (uuid_source env (drawn w));
            meta := {| Meta.format := "png";
                       Meta.style := Str (Terms.style_part_or_empty style);
                       Meta.dimensions := "256x256";
                       Meta.transparent := Bool (default true transparent);
                       Meta.query := Str q |} |}.
Proof.
  intros H.
  assert (Himage :
    exists key prov w',
      generateImage env query format (Terms.js_of style) key prov
        (default_to (Terms.js_of_bool transparent) (Bool true)) w
      = (Return asset, w')
      \/ PlaceholderService.generateImage env query format (Terms.js_of style)
           key prov (default_to (Terms.js_of_bool transparent) (Bool true)) w
         = (Return asset, w')).
  { destruct H as [H|H];
      [unfold generateAsset in H|unfold PlaceholderService.generateAsset in H];
      cbv zeta in H;
      (destruct (negb (truthy _)); [discriminate|]);
      (destruct (strict_eq type (Str "image")); [|discriminate]);
      match type of H with
      | fst ?run = _ => destruct run as [out w'] eqn:Hrun
      end; simpl in H; subst out; eauto 6. }
  destruct Himage as (key & prov & w' & Himage).
  apply generateImage_returns in Himage as (q & -> & ->).
  exists q. split; [reflexivity|].
  now rewrite style_or_default, transparent_or_true.
Qed.

Lemma successful_generation_result_witness :
  exists q,
    Str "Pixelated sprite component of a carrot" = Str q
    /\ Sample.carrot_asset
       = {| status := "success";
            file_path := path_join Sample.env0 (assetStorage_path Sample.env0)
                           (file_name Sample.carrot_asset);
            file_name := filename_of q (Str "sprite")
                           (uuid_source Sample.env0 (drawn Sample.world0));
            meta := {| Meta.format := "png";
                       Meta.style := Str (Terms.style_part_or_empty None);
                       Meta.dimensions := "256x256";
                       Meta.transparent := Bool (default true None);
                       Meta.query := Str q |} |}.
Proof.
  eapply (successful_generation_result Sample.env0 ConfigService.fallback
            (Str "Pixelated sprite component of a carrot") (Str "image")
            (Str "sprite") None (Str "sk-test") (Str "openai") None
            Sample.world0 Sample.carrot_asset).
  left. vm_compute. reflexivity.
Defined.

End ServiceFacts.

(** ** The rate limiter *)

Section LimiterFacts.
Import Js Sys Http AssetRoutes Terms.

Lemma keeps_ret {A} (a : A) : keeps_windows (mret a).
Proof. now intros w. Qed.

Lemma keeps_throw {A} e : keeps_windows (@throw A e).
Proof. now intros w. Qed.

Lemma keeps_bind {A B} (m : M A) (k : A -> M B) :
  keeps_windows m -> (forall a, keeps_windows (k a)) -> keeps_windows (m ≫= k).
Proof.
  intros Hm Hk w. run_monad. specialize (Hm w).
  destruct (m w) as [[a|e] w1]; simpl in *; [|assumption].
  now rewrite Hk.
Qed.

Lemma keeps_try_catch {A} (m : M A) handler :
  keeps_windows m -> (forall e, keeps_windows (handler e)) ->
  keeps_windows (try_catch m handler).
Proof.
  intros Hm Hh w. unfold try_catch. specialize (Hm w).
  destruct (m w) as [[a|e] w1]; simpl in *; [assumption|].
  now rewrite Hh.
Qed.

Lemma keeps_axios_post env target body authorization :
  keeps_windows (axios_post env target body authorization).
Proof. intros w. unfold axios_post. now destruct (post_reply _ _ _ _ _). Qed.

Lemma keeps_axios_get env target : keeps_windows (axios_get env target).
Proof. intros w. unfold axios_get. now destruct (get_reply _ _ _). Qed.

Lemma keeps_existsSync path : keeps_windows (fs_existsSync path).
Proof. now intros w. Qed.

Lemma keeps_mkdirSync env dir : keeps_windows (fs_mkdirSync env dir).
Proof. intros w. unfold fs_mkdirSync. now destruct (mkdir_fault _ _). Qed.

Lemma keeps_writeFileSync env path bytes :
  keeps_windows (fs_writeFileSync env path bytes).
Proof. intros w. unfold fs_writeFileSync. now destruct (write_fault _ _). Qed.

Lemma keeps_uuidv4 env : keeps_windows (uuidv4 env).
Proof. now intros w. Qed.

Lemma keeps_respond code payload : keeps_windows (respond code payload).
Proof. now intros w. Qed.

Lemma keeps_upstream_detail body :
  keeps_windows (AssetService.upstream_detail body).
Proof. intros w. now destruct body as [|[[[m|]]|]]. Qed.

Create HintDb keeps discriminated.
Hint Resolve keeps_ret keeps_throw keeps_axios_post keeps_axios_get
  keeps_existsSync keeps_mkdirSync keeps_writeFileSync keeps_uuidv4
  keeps_respond keeps_upstream_detail : keeps.

Ltac keeps_step :=
  first
    [ apply keeps_bind; [|intros ?]
    | apply keeps_try_catch; [|intros ?]
    | progress auto with keeps
    | match goal with
      | |- keeps_windows (match ?x with _ => _ end) => destruct x
      | |- keeps_windows (let '(_, _) := ?x in _) => destruct x
      end ].

Lemma keeps_generateAsset env config query type format style api_key provider
    transparent :
  keeps_windows (AssetService.generateAsset env config query type format style
                   api_key provider transparent).
Proof.
  unfold AssetService.generateAsset, AssetService.generateImage,
    AssetService.generateFilename, AssetService.callOpenAIImageAPI,
    AssetService.downloadImage, AssetService.saveImageToDisk.
  cbv zeta. repeat keeps_step.
Qed.

Lemma keeps_controller env config body :
  keeps_windows (AssetController.generateAsset env config body).
Proof.
  unfold AssetController.generateAsset.
  apply keeps_try_catch.
  - apply keeps_bind; [apply keeps_generateAsset|intros ?; auto with keeps].
  - intros e. repeat keeps_step.
Qed.

Lemma keeps_validate config body next :
  keeps_windows next ->
  keeps_windows (ValidateRequest.validateGenerateRequest config body next).
Proof.
  intros Hnext. unfold ValidateRequest.validateGenerateRequest. cbv zeta.
  repeat keeps_step.
Qed.

Lemma controller_returns env config body :
  returns (AssetController.generateAsset env config body).
Proof.
  intros w. unfold AssetController.generateAsset, try_catch. run_monad.
  destruct (AssetService.generateAsset _ _ _ _ _ _ _ _ _ w) as [[a|e] w1];
    unfold respond; run_monad; [eauto|].
  repeat (match goal with |- context [if ?b then _ else _] => destruct b end);
    eauto.
Qed.

Lemma validate_returns config body next :
  returns next ->
  returns (ValidateRequest.validateGenerateRequest config body next).
Proof.
  intros Hnext w. rewrite validate_first_failure.
  destruct (Rules.first_failure config body); eauto.
Qed.

Lemma hit_other W max c c' t (ws : gmap string RateWindow) :
  c <> c' -> snd (RateLimiter.hit W max c' t ws) !! c = ws !! c.
Proof. intros Hne. unfold RateLimiter.hit. simpl. now rewrite lookup_insert_ne. Qed.

Lemma hit_within_window W max c t (ws : gmap string RateWindow) win :
  ws !! c = Some win -> (t - windowStart win < W)%Z ->
  RateLimiter.hit W max c t ws
  = ((count win + 1 >? max)%Z,
     <[ c := {| count := count win + 1; windowStart := windowStart win |} ]> ws).
Proof.
  intros Hwin Hinside. unfold RateLimiter.hit. rewrite Hwin.
  now replace (t - windowStart win >=? W)%Z with false
    by (symmetry; rewrite Z.geb_leb; apply Z.leb_gt; lia).
Qed.

Lemma hit_new_window W max c t (ws : gmap string RateWindow) :
  ws !! c = None
  \/ (exists win, ws !! c = Some win /\ (t - windowStart win >= W)%Z) ->
  RateLimiter.hit W max c t ws
  = ((1 >? max)%Z, <[ c := {| count := 1; windowStart := t |} ]> ws).
Proof.
  intros [Hnone|(win & Hwin & Hexpired)]; unfold RateLimiter.hit.
  - now rewrite Hnone.
  - rewrite Hwin.
    now replace (t - windowStart win >=? W)%Z with true
      by (symmetry; rewrite Z.geb_leb; apply Z.leb_le; lia).
Qed.

(** The route, step by step: the limiter counts the request, and either
    rejects it or hands it to validation. *)
Lemma post_generate_run env config req w :
  post_generate env config req w
  = let counted :=
      RateLimiter.hit (rateLimit_windowMs env) (rateLimit_max env) (ip req)
        (now req) (windows w) in
    if fst counted
    then (Return rate_limited, set_windows (snd counted) w)
    else after_limiter env config (body req) (set_windows (snd counted) w).
Proof.
  unfold post_generate, RateLimiter.apiRateLimiter.
  now destruct (RateLimiter.hit _ _ _ _ _) as [[|] ws].
Qed.

Lemma after_limiter_returns env config body :
  returns (after_limiter env config body).
Proof. apply validate_returns, controller_returns. Qed.

Lemma after_limiter_keeps env config body :
  keeps_windows (after_limiter env config body).
Proof. apply keeps_validate, keeps_controller. Qed.

Lemma post_generate_windows env config req w :
  exists response w',
    post_generate env config req w = (Return response, w')
    /\ windows w'
       = snd (RateLimiter.hit (rateLimit_windowMs env) (rateLimit_max env)
                (ip req) (now req) (windows w)).
Proof.
  rewrite post_generate_run. cbv zeta.
  destruct (fst (RateLimiter.hit _ _ _ _ _)).
  - eauto.
  - pose proof (after_limiter_keeps env config (body req)
                  (set_windows (snd (RateLimiter.hit (rateLimit_windowMs env)
                     (rateLimit_max env) (ip req) (now req) (windows w))) w))
      as Hkeep.
    destruct (after_limiter_returns env config (body req)
                (set_windows (snd (RateLimiter.hit (rateLimit_windowMs env)
                   (rateLimit_max env) (ip req) (now req) (windows w))) w))
      as (response & w' & Hrun).
    rewrite Hrun in Hkeep |- *. eauto.
Qed.

(** Inside a window, the counter of a client grows by one with each of
    its requests, whatever the other clients do. *)
Lemma serve_counts env config c t0 reqs :
  forall w k,
    windows w !! c = Some {| count := k; windowStart := t0 |} ->
    Forall (fun r => ip r = c -> (now r - t0 < rateLimit_windowMs env)%Z) reqs ->
    exists responses w',
      serve env config reqs w = (Return responses, w')
      /\ windows w' !! c
         = Some {| count := k + Z.of_nat (length (filter (fun r => ip r = c) reqs));
                   windowStart := t0 |}.
Proof.
  induction reqs as [|req reqs IH]; intros w k Hwin Hinside.
  - exists [], w. split; [reflexivity|]. simpl. now rewrite Z.add_0_r.
  - apply Forall_cons in Hinside as [Hreq Hrest].
    destruct (post_generate_windows env config req w)
      as (response & w1 & Hrun & Hwindows).
    assert (Hnext : windows w1 !! c
                    = Some {| count := k + (if decide (ip req = c) then 1 else 0);
                              windowStart := t0 |}).
    { rewrite Hwindows. destruct (decide (ip req = c)) as [Heq|Hne].
      - rewrite Heq in *.
        rewrite (hit_within_window _ _ _ _ _ _ Hwin) by (simpl; auto).
        simpl. now rewrite lookup_insert_eq.
      - rewrite hit_other by congruence. now rewrite Hwin, Z.add_0_r. }
    destruct (IH w1 _ Hnext Hrest) as (responses & w' & Hserve & Hcount).
    exists (response :: responses), w'. split.
    + cbn [serve]. run_monad. now rewrite Hrun, Hserve.
    + rewrite Hcount. rewrite filter_cons.
      destruct (decide (ip req = c)); simpl length; f_equal; f_equal; lia.
Qed.

(** C9: the fixed-window limiter rejects, with the rate-limited response
    and before validation runs, the (max+1)-th request a client sends
    within one window, whatever the other clients send in between; and it
    hands to validation the first request of the next window
    (now - windowStart >= W), even when the previous window was
    exhausted. *)
Theorem fixed_window_limit env config c :
  (forall w first others last,
     ip first = c -> ip last = c ->
     windows w !! c = None
     \/ (exists win, windows w !! c = Some win
                     /\ (now first - windowStart win >= rateLimit_windowMs env)%Z) ->
     Forall (fun r => ip r = c ->
                      (now r - now first < rateLimit_windowMs env)%Z)
       (others ++ [last]) ->
     Z.of_nat (length (filter (fun r => ip r = c) others))
     = (rateLimit_max env - 1)%Z ->
     exists responses w1 ws,
       serve env config (first :: others) w = (Return responses, w1)
       /\ post_generate env config last w1
          = (Return rate_limited, set_windows ws w1))
  /\ (forall w req win,
        ip req = c -> (0 < rateLimit_max env)%Z ->
        windows w !! c = Some win ->
        (now req - windowStart win >= rateLimit_windowMs env)%Z ->
        post_generate env config req w
        = after_limiter env config (body req)
            (set_windows (<[ c := {| count := 1; windowStart := now req |} ]>
                            (windows w)) w)).
Proof.
  split.
  - intros w first others last Hfirst Hlast Hopens Hinside Hcount.
    apply Forall_app in Hinside as [Hothers Hlast_inside].
    apply Forall_cons in Hlast_inside as [Hlast_inside _].
    specialize (Hlast_inside Hlast).
    destruct (post_generate_windows env config first w)
      as (response & w0 & Hrun & Hwindows).
    rewrite Hfirst, hit_new_window in Hwindows by exact Hopens.
    cbn [snd] in Hwindows.
    assert (Hwin : windows w0 !! c = Some {| count := 1; windowStart := now first |})
      by now rewrite Hwindows, lookup_insert_eq.
    destruct (serve_counts env config c (now first) others w0 1 Hwin Hothers)
      as (responses & w1 & Hserve & Hfull).
    exists (response :: responses), w1. eexists. split.
    + cbn [serve]. run_monad. now rewrite Hrun, Hserve.
    + rewrite post_generate_run, Hlast. cbv zeta.
      rewrite (hit_within_window _ _ _ _ _ _ Hfull) by exact Hlast_inside.
      cbn [fst snd count].
      replace (1 + Z.of_nat (length (filter (fun r => ip r = c) others)) + 1
               >? rateLimit_max env)%Z with true
        by (symmetry; apply Z.gtb_lt; lia).
      reflexivity.
  - intros w req win Hreq Hmax Hwin Hexpired.
    rewrite post_generate_run, Hreq. cbv zeta.
    rewrite hit_new_window by eauto. cbn [fst snd].
    now replace (1 >? rateLimit_max env)%Z with false
      by (symmetry; rewrite Z.gtb_ltb; apply Z.ltb_ge; lia).
Qed.

Lemma fixed_window_limit_witness :
  (exists responses w1 ws,
     serve Sample.two_per_minute ConfigService.fallback
       [Sample.request "10.0.0.7" 1000; Sample.request "10.0.0.9" 1500;
        Sample.request "10.0.0.7" 2000] Sample.world0
     = (Return responses, w1)
     /\ post_generate Sample.two_per_minute ConfigService.fallback
          (Sample.request "10.0.0.7" 59999) w1
        = (Return rate_limited, set_windows ws w1))
  /\ post_generate Sample.two_per_minute ConfigService.fallback
       (Sample.request "10.0.0.7" 60000) Sample.exhausted
     = after_limiter Sample.two_per_minute ConfigService.fallback
         (body (Sample.request "10.0.0.7" 60000))
         (set_windows (<[ "10.0.0.7" := {| count := 1; windowStart := 60000 |} ]>
                         (windows Sample.exhausted)) Sample.exhausted).
Proof.
  destruct (fixed_window_limit Sample.two_per_minute ConfigService.fallback
              "10.0.0.7") as [Hreject Hallow].
  split.
  - apply (Hreject Sample.world0 (Sample.request "10.0.0.7" 1000)
             [Sample.request "10.0.0.9" 1500; Sample.request "10.0.0.7" 2000]
             (Sample.request "10.0.0.7" 59999)).
    + reflexivity.
    + reflexivity.
    + left. reflexivity.
    + repeat constructor; simpl; lia.
    + reflexivity.
  - apply (Hallow Sample.exhausted (Sample.request "10.0.0.7" 60000)
             {| count := 5; windowStart := 0 |}).
    + reflexivity.
    + reflexivity.
    + reflexivity.
    + simpl. lia.
Defined.

End LimiterFacts.

(** ** Scenarios of the specification *)

Section Scenarios.
Import Js Sys Http AssetRoutes.

(** The provider answers 401: the handler answers 401, with the detail of
    the error, and no file is written. *)
Example unauthorized_scenario :
  let run :=
    post_generate (Sample.answering Sample.unauthorized) ConfigService.fallback
      {| ip := "10.0.0.7"; now := 0;
         body := Obj 6 [("query", Str "a carrot"); ("type", Str "image");
                        ("api_key", Str "sk-expired")] |}
      Sample.world0 in
  fst run
  = Return {| statusCode := 401;
              json := ErrorDetailsJson "Invalid or missing API key."
                        "API key is invalid or expired." |}
  /\ files (snd run) = files Sample.world0.
Proof. split; vm_compute; reflexivity. Qed.

(** A request for the provider stability with transparent false: success,
    the opaque placeholder on disk, and no network call. *)
Example stability_scenario :
  let run :=
    post_generate Sample.env0 ConfigService.fallback
      {| ip := "10.0.0.7"; now := 0;
         body := Obj 7 [("query", Str "a carrot"); ("type", Str "image");
                        ("api_key", Str "sk-test"); ("provider", Str "stability");
                        ("transparent", Bool false)] |}
      Sample.world0 in
  (statusCode <$> Sample.returned run) = Some 200%Z
  /\ files (snd run) !! "generated-assets/a_carrot_image_1b9d6bcd.png"
     = Some Terms.white_pixel
  /\ outbound (snd run) = [].
Proof.
  split; [vm_compute; reflexivity|].
  split; [vm_compute; reflexivity|reflexivity].
Qed.

End Scenarios.

(** * Further properties of the source *)

(** ** The slug of generateFilename *)

Section SlugShape.
Import JsString Js Sys.

Lemma all_chars_append p a b :
  all_chars p (a +:+ b) = all_chars p a && all_chars p b.
Proof.
  induction a as [|c a IH]; [reflexivity|].
  change (String c a +:+ b) with (String c (a +:+ b)).
  cbn [all_chars]. now rewrite IH, andb_assoc.
Qed.

Lemma all_chars_weaken (p q : ascii -> bool) s :
  (forall c, p c = true -> q c = true) ->
  all_chars p s = true -> all_chars q s = true.
Proof.
  intros Hpq. induction s as [|c s IH]; [reflexivity|]. cbn [all_chars].
  intros [Hc Hs]%andb_prop. now rewrite (Hpq c Hc), IH.
Qed.

Lemma all_chars_take p k s :
  all_chars p s = true -> all_chars p (take k s) = true.
Proof.
  revert s. induction k as [|k IH]; intros [|c s]; try reflexivity.
  cbn [all_chars take]. intros [Hc Hs]%andb_prop. now rewrite Hc, IH.
Qed.

(** Collapsing the runs leaves only [a-z0-9] and single underscores. *)
Lemma collapse_chars b s :
  all_chars Terms.slug_or_underscore (Spec.collapse_runs b s) = true.
Proof.
  revert b. induction s as [|c s IH]; intros b; [reflexivity|].
  cbn [Spec.collapse_runs]. destruct (Spec.slug_char c) eqn:Hc.
  - cbn [all_chars]. unfold Terms.slug_or_underscore at 1. now rewrite Hc, IH.
  - destruct b; [apply IH|]. cbn [all_chars]. now rewrite IH.
Qed.

Lemma collapse_in_run_start s :
  Terms.starts_with_underscore (Spec.collapse_runs true s) = false.
Proof.
  induction s as [|c s IH]; [reflexivity|].
  cbn [Spec.collapse_runs]. destruct (Spec.slug_char c) eqn:Hc; [|exact IH].
  cbn [Terms.starts_with_underscore]. unfold Spec.is_underscore.
  destruct (Ascii.eqb c "_") eqn:Hu; [|reflexivity].
  apply Ascii.eqb_eq in Hu. subst c. discriminate.
Qed.

Lemma collapse_no_adjacent b s :
  Terms.adjacent_underscores (Spec.collapse_runs b s) = false.
Proof.
  revert b. induction s as [|c s IH]; intros b; [reflexivity|].
  cbn [Spec.collapse_runs]. destruct (Spec.slug_char c) eqn:Hc.
  - cbn [Terms.adjacent_underscores]. rewrite IH, orb_false_r.
    unfold Spec.is_underscore. destruct (Ascii.eqb c "_") eqn:Hu; [|reflexivity].
    apply Ascii.eqb_eq in Hu. subst c. discriminate.
  - destruct b; [apply IH|]. cbn [Terms.adjacent_underscores].
    now rewrite collapse_in_run_start, IH, andb_false_r.
Qed.

Lemma strip_leading_chars s :
  all_chars Terms.slug_or_underscore s = true ->
  all_chars Terms.slug_or_underscore (Spec.strip_leading s) = true.
Proof.
  destruct s as [|c s]; [reflexivity|]. cbn [Spec.strip_leading all_chars].
  intros [Hc Hs]%andb_prop. destruct (Spec.is_underscore c); [exact Hs|].
  cbn [all_chars]. now rewrite Hc, Hs.
Qed.

Lemma strip_leading_shape s :
  Terms.adjacent_underscores s = false ->
  Terms.adjacent_underscores (Spec.strip_leading s) = false
  /\ Terms.starts_with_underscore (Spec.strip_leading s) = false.
Proof.
  destruct s as [|c s]; [now split|].
  cbn [Spec.strip_leading Terms.adjacent_underscores].
  intros [Hfirst Hrest]%orb_false_elim.
  destruct (Spec.is_underscore c) eqn:Hc.
  - now split.
  - split; [|exact Hc]. cbn [Terms.adjacent_underscores]. now rewrite Hc, Hrest.
Qed.

Lemma strip_trailing_chars s :
  all_chars Terms.slug_or_underscore s = true ->
  all_chars Terms.slug_or_underscore (Spec.strip_trailing s) = true.
Proof.
  induction s as [|c s IH]; [reflexivity|].
  cbn [all_chars]. intros [Hc Hs]%andb_prop.
  cbn [Spec.strip_trailing]. destruct s as [|c' s'].
  - destruct (Spec.is_underscore c); [reflexivity|]. cbn [all_chars].
    now rewrite Hc.
  - cbn [all_chars] in *. now rewrite Hc, IH.
Qed.

Lemma strip_trailing_start s :
  Terms.starts_with_underscore s = false ->
  Terms.starts_with_underscore (Spec.strip_trailing s) = false.
Proof.
  destruct s as [|c [|c' s']]; try reflexivity.
  - cbn [Spec.strip_trailing Terms.starts_with_underscore].
    intros Hc. rewrite Hc. exact Hc.
  - cbn [Spec.strip_trailing Terms.starts_with_underscore]. auto.
Qed.

Lemma strip_trailing_start_inner c s :
  Terms.starts_with_underscore (Spec.strip_trailing (String c s)) = true ->
  Spec.is_underscore c = true.
Proof.
  destruct s as [|c' s']; cbn [Spec.strip_trailing].
  - destruct (Spec.is_underscore c) eqn:Hc; [reflexivity|].
    cbn [Terms.starts_with_underscore]. congruence.
  - cbn [Terms.starts_with_underscore]. auto.
Qed.

Lemma strip_trailing_no_adjacent s :
  Terms.adjacent_underscores s = false ->
  Terms.adjacent_underscores (Spec.strip_trailing s) = false.
Proof.
  induction s as [|c s IH]; [reflexivity|].
  cbn [Terms.adjacent_underscores]. intros [Hfirst Hrest]%orb_false_elim.
  cbn [Spec.strip_trailing]. destruct s as [|c' s'].
  - destruct (Spec.is_underscore c); [reflexivity|].
    cbn [Terms.adjacent_underscores Terms.starts_with_underscore].
    now rewrite andb_false_r.
  - cbn [Terms.adjacent_underscores]. rewrite (IH Hrest), orb_false_r.
    destruct (Spec.is_underscore c) eqn:Hc; [|reflexivity]. cbn [andb] in *.
    destruct (Terms.starts_with_underscore (Spec.strip_trailing (String c' s')))
      eqn:Hstart; [|reflexivity].
    apply strip_trailing_start_inner in Hstart. cbn in Hfirst. congruence.
Qed.

Lemma take_start k s :
  Terms.starts_with_underscore s = false ->
  Terms.starts_with_underscore (take k s) = false.
Proof. destruct k, s; auto. Qed.

Lemma take_no_adjacent k s :
  Terms.adjacent_underscores s = false ->
  Terms.adjacent_underscores (take k s) = false.
Proof.
  revert s. induction k as [|k IH]; intros [|c s]; try reflexivity.
  cbn [Terms.adjacent_underscores take].
  intros [Hfirst Hrest]%orb_false_elim. rewrite (IH _ Hrest), orb_false_r.
  destruct (Spec.is_underscore c); [|reflexivity]. cbn [andb] in *.
  destruct k, s; auto.
Qed.

Lemma strip_trailing_length s :
  (String.length (Spec.strip_trailing s) <= String.length s)%nat.
Proof.
  induction s as [|c s IH]; [reflexivity|]. cbn [Spec.strip_trailing].
  destruct s as [|c' s'].
  - destruct (Spec.is_underscore c); simpl; lia.
  - simpl in *. lia.
Qed.

Lemma slug_shape_aux query :
  all_chars Terms.slug_or_underscore (Filename.slug query) = true
  /\ Terms.adjacent_underscores (Filename.slug query) = false
  /\ Terms.starts_with_underscore (Filename.slug query) = false
  /\ (String.length (Filename.slug query) <= 50)%nat.
Proof.
  rewrite slug_refines. unfold Spec.slug.
  pose proof (collapse_chars false (toLowerCase query)) as Hchars.
  pose proof (collapse_no_adjacent false (toLowerCase query)) as Hadj.
  apply strip_leading_chars in Hchars.
  apply strip_leading_shape in Hadj as [Hadj Hstart].
  split; [now apply all_chars_take, strip_trailing_chars|].
  split; [now apply take_no_adjacent, strip_trailing_no_adjacent|].
  split; [now apply take_start, strip_trailing_start|].
  rewrite take_length. lia.
Qed.

(** X1: whatever the query, its slug is at most 50 characters long, is
    made of [a-z0-9] and underscores only, does not start with an
    underscore and has no two underscores in a row. *)
Theorem slug_is_well_formed query :
  (String.length (Filename.slug query) <= 50)%nat
  /\ all_chars Terms.slug_or_underscore (Filename.slug query) = true
  /\ Terms.starts_with_underscore (Filename.slug query) = false
  /\ Terms.adjacent_underscores (Filename.slug query) = false.
Proof.
  destruct (slug_shape_aux query) as (Hchars & Hadj & Hstart & Hlen).
  repeat split; assumption.
Qed.

Lemma strip_trailing_empty s :
  Spec.strip_trailing s = EmptyString ->
  s = EmptyString
  \/ exists c, s = String c EmptyString /\ Spec.is_underscore c = true.
Proof.
  destruct s as [|c [|c' s']]; [now left| |discriminate].
  cbn [Spec.strip_trailing]. destruct (Spec.is_underscore c) eqn:Hc;
    [eauto|discriminate].
Qed.

Lemma strip_trailing_end s :
  Terms.adjacent_underscores s = false ->
  Terms.ends_with_underscore (Spec.strip_trailing s) = false.
Proof.
  induction s as [|c s IH]; [reflexivity|].
  cbn [Terms.adjacent_underscores]. intros [Hfirst Hrest]%orb_false_elim.
  cbn [Spec.strip_trailing]. destruct s as [|c' s'].
  - destruct (Spec.is_underscore c) eqn:Hc; [reflexivity|].
    cbn [Terms.ends_with_underscore]. exact Hc.
  - specialize (IH Hrest).
    destruct (Spec.strip_trailing (String c' s')) as [|d u] eqn:Ht.
    + apply strip_trailing_empty in Ht as [Ht|(c0 & Ht & Hc0)]; [discriminate|].
      injection Ht as -> ->. cbn [Terms.ends_with_underscore].
      cbn [Terms.starts_with_underscore] in Hfirst. rewrite Hc0 in Hfirst.
      now rewrite andb_true_r in Hfirst.
    + exact IH.
Qed.

(** The slug of a string that has the shape of a slug. *)
Lemma slug_of_shaped y :
  all_chars Terms.slug_or_underscore y = true ->
  Terms.adjacent_underscores y = false ->
  Terms.starts_with_underscore y = false ->
  (String.length y <= 50)%nat ->
  Filename.slug y = Spec.strip_trailing y.
Proof.
  intros Hchars Hadj Hstart Hlen. rewrite slug_refines. unfold Spec.slug.
  rewrite toLowerCase_fixed, collapse_fixed, strip_leading_fixed by assumption.
  apply take_all. pose proof (strip_trailing_length y). lia.
Qed.

(** X2: slugging a slug again only strips the underscore that truncation
    may have left at its end, and from then on changes nothing: the slug
    of a slug is a fixed point of the transformation. *)
Theorem reslug_strips_trailing query :
  Filename.slug (Filename.slug query) = Spec.strip_trailing (Filename.slug query)
  /\ Filename.slug (Filename.slug (Filename.slug query))
     = Filename.slug (Filename.slug query).
Proof.
  destruct (slug_shape_aux query) as (Hchars & Hadj & Hstart & Hlen).
  pose proof (strip_trailing_length (Filename.slug query)) as Hshort.
  rewrite (slug_of_shaped (Filename.slug query)) by assumption.
  split; [reflexivity|].
  rewrite slug_of_shaped.
  - now apply strip_trailing_fixed, strip_trailing_end.
  - now apply strip_trailing_chars.
  - now apply strip_trailing_no_adjacent.
  - now apply strip_trailing_start.
  - lia.
Qed.

Lemma ascii_symbol_outside c :
  Cases.ascii_symbol c = true -> Spec.slug_char (lower_char c) = false.
Proof.
  destruct c as [b0 b1 b2 b3 b4 b5 b6 b7].
  destruct b0, b1, b2, b3, b4, b5, b6, b7; vm_compute; congruence.
Qed.

(** X3: a query made of ASCII characters none of which is a letter or a
    digit has the empty slug, so the name of its file starts with the
    underscore that precedes the format: it is that underscore, the format
    (or image), an underscore, the first 8 characters of the identifier
    and .png. *)
Theorem slug_without_alnum_is_empty env query format w :
  all_chars Cases.ascii_symbol query = true ->
  Filename.slug query = EmptyString
  /\ fst (AssetService.generateFilename env (Str query) (Terms.js_of format) w)
     = Return ("_" +:+ Terms.format_part_or_empty format +:+ "_"
               +:+ take 8 (uuid_source env (drawn w)) +:+ ".png").
Proof.
  intros Hnone.
  assert (Hruns : forall b,
            Spec.collapse_runs b (toLowerCase query) = EmptyString
            \/ Spec.collapse_runs b (toLowerCase query) = "_").
  { induction query as [|c q IH]; intros b; [now left|].
    cbn [all_chars] in Hnone. apply andb_prop in Hnone as [Hc Hq].
    cbn [toLowerCase Spec.collapse_runs].
    rewrite (ascii_symbol_outside c Hc).
    destruct b; [apply (IH Hq)|].
    right. destruct (IH Hq true) as [Hrest|Hrest]; rewrite Hrest.
    - reflexivity.
    - exfalso. pose proof (collapse_in_run_start (toLowerCase q)) as Hstart.
      rewrite Hrest in Hstart. discriminate. }
  assert (Hslug : Filename.slug query = EmptyString).
  { rewrite slug_refines. unfold Spec.slug.
    destruct (Hruns false) as [-> | ->]; reflexivity. }
  split; [exact Hslug|].
  rewrite generateFilename_run. cbn [fst]. f_equal.
  unfold AssetService.filename_of.
  now rewrite Hslug, substring_from_0, format_or_image.
Qed.

Lemma slug_without_alnum_is_empty_witness :
  Filename.slug "?!  --  ..." = EmptyString
  /\ fst (AssetService.generateFilename Sample.env0 (Str "?!  --  ...")
            (Terms.js_of (Some "icon")) Sample.world0)
     = Return "_icon_1b9d6bcd.png".
Proof.
  apply (slug_without_alnum_is_empty Sample.env0 "?!  --  ..." (Some "icon")
           Sample.world0).
  reflexivity.
Defined.

Lemma includes_literal literals v :
  Js.includes literals v = true -> exists s, v = Str s /\ In s literals.
Proof.
  unfold Js.includes. intros (s & Hin & Heq)%existsb_exists.
  destruct v; try discriminate. cbn in Heq. apply String.eqb_eq in Heq.
  subst. eauto.
Qed.

Lemma hex_is_name_char c : Terms.hex_digit c = true -> Cases.name_char c = true.
Proof.
  unfold Terms.hex_digit, Cases.name_char, Spec.slug_char, in_range, code.
  change (nat_of_ascii "a") with 97%nat. change (nat_of_ascii "f") with 102%nat.
  change (nat_of_ascii "z") with 122%nat.
  intros [H|H]%orb_prop.
  - now rewrite H, orb_true_r.
  - apply andb_prop in H as [H1 H2]. apply Nat.leb_le in H2.
    rewrite H1. replace (nat_of_ascii c <=? 122)%nat with true
      by (symmetry; apply Nat.leb_le; lia).
    reflexivity.
Qed.

Lemma slug_char_is_name_char c :
  Terms.slug_or_underscore c = true -> Cases.name_char c = true.
Proof.
  unfold Terms.slug_or_underscore, Cases.name_char. intros ->. reflexivity.
Qed.

(** X4: for a format that validation accepts and a version 4 identifier,
    the generated file name is made of [a-z0-9], underscores and dots only
    (so it names a file directly under the storage directory, whatever the
    query holds) and is at most 73 characters long. *)
Theorem generated_name_is_plain env query format w :
  truthy format = false
  \/ Js.includes ["sprite"; "icon"; "component"] format = true ->
  Terms.is_uuid_v4 (uuid_source env (drawn w)) = true ->
  exists name,
    fst (AssetService.generateFilename env (Str query) format w) = Return name
    /\ all_chars Cases.name_char name = true
    /\ (String.length name <= 73)%nat.
Proof.
  intros Hformat Huuid. rewrite generateFilename_run. eexists. split; [reflexivity|].
  unfold AssetService.filename_of. rewrite substring_from_0.
  destruct (slug_shape_aux query) as (Hchars & _ & _ & Hlen).
  apply (all_chars_weaken _ _ _ slug_char_is_name_char) in Hchars.
  apply uuid_prefix_is_hex in Huuid as [Hhex Hhex_len].
  apply (all_chars_weaken _ _ _ hex_is_name_char) in Hhex.
  assert (Hfmt : In (to_string (or_else format (Str "image")))
                    ["image"; "sprite"; "icon"; "component"]).
  { unfold or_else. destruct Hformat as [Hfalsy|Hin].
    - rewrite Hfalsy. now left.
    - apply includes_literal in Hin as (s & -> & Hs).
      destruct Hs as [<-|[<-|[<-|[]]]]; cbn; auto. }
  rewrite !all_chars_append, !append_length, Hchars, Hhex, Hhex_len.
  cbn [In] in Hfmt.
  destruct Hfmt as [<-|[<-|[<-|[<-|[]]]]]; (split; [reflexivity|simpl; lia]).
Qed.

Lemma generated_name_is_plain_witness :
  exists name,
    fst (AssetService.generateFilename Sample.env0 (Str "../../etc/passwd")
           (Str "icon") Sample.world0) = Return name
    /\ all_chars Cases.name_char name = true
    /\ (String.length name <= 73)%nat.
Proof.
  apply generated_name_is_plain; [right|]; reflexivity.
Defined.

End SlugShape.

(** ** The provider gateway: the paths of generateImage *)

Section GatewayPaths.
Import JsString Js Sys Http AssetService.




(** X19: with the openai provider, when the upstream refuses with a body
    that is the JSON document null and a status other than 401 and 429,
    the detail is read from the body without a guard, and generateImage
    fails with the TypeError of that read instead of a bad-request or
    provider error.  The call was made once and no file is written. *)
Theorem null_upstream_body_is_a_type_error env query format style api_key
    transparent w msg upstream_status :
  post_reply env (outbound w) images_endpoint
    (images_request (Terms.prompt_for (Str query) transparent))
    ("Bearer " +:+ api_key)
  = Failure (AxiosError msg (Some (upstream_status, NullBody))) ->
  upstream_status <> 401%Z ->
  upstream_status <> 429%Z ->
  exists w',
    generateImage env (Str query) (Terms.js_of format) style (Str api_key)
      (Str "openai") transparent w
    = (Throw (TypeError "Cannot read properties of null (reading 'error')"),
       w')
    /\ outbound w'
       = Cases.provider_call (Str query) (Str api_key) transparent :: outbound w
    /\ files w' = files w.
Proof.
  intros Hreply H401 H429.
  unfold generateImage. cbn [strict_eq String.eqb Ascii.eqb Bool.eqb].
  run_monad. rewrite generateFilename_run.
  unfold callOpenAIImageAPI, axios_post. run_monad.
  cbn [outbound set_drawn].
  fold (Terms.prompt_for (Str query) transparent).
  change (to_string (Str api_key)) with api_key.
  rewrite Hreply. cbn [error_response].
  apply Z.eqb_neq in H401, H429. rewrite H401, H429.
  destruct (upstream_status =? 400)%Z; eexists; (split; [reflexivity|]);
    now split.
Qed.

Lemma null_upstream_body_is_a_type_error_witness :
  exists w',
    generateImage (Cases.env_with Cases.null_refusal (Answer Cases.png_bytes) None)
      (Str "a carrot") (Str "icon") Undefined (Str "sk-test") (Str "openai")
      (Bool true) Sample.world0
    = (Throw (TypeError "Cannot read properties of null (reading 'error')"),
       w')
    /\ outbound w'
       = [Post "https://api.openai.com/v1/images/generations"
            {| prompt := Str "a carrot with transparent background"; n := 1;
               size := "1024x1024"; response_format := "url" |}
            "Bearer sk-test"]
    /\ files w' = files Sample.world0.
Proof.
  apply (null_upstream_body_is_a_type_error
           (Cases.env_with Cases.null_refusal (Answer Cases.png_bytes) None)
           "a carrot" (Some "icon") Undefined "sk-test" (Bool true)
           Sample.world0 "Request failed with status code 400" 400%Z);
    [reflexivity|lia|lia].
Defined.





(** X8: for a provider other than openai, when creating the directory or
    writing the file fails, generateImage fails with "Failed to save
    image: " followed by the error of the disk; no file is changed and no
    network call is made. *)
Theorem save_failure_is_reported env query format style api_key provider
    transparent w msg :
  strict_eq provider (Str "openai") = false ->
  Terms.disk_fault env w (Terms.asset_path env query format w) = Some msg ->
  exists w',
    generateImage env (Str query) format style api_key provider transparent w
    = (Throw (Error ("Failed to save image: " +:+ msg)), w')
    /\ files w' = files w
    /\ outbound w' = outbound w.
Proof.
  intros Hprov Hdisk. unfold generateImage. rewrite Hprov. run_monad.
  rewrite generateFilename_run. fold (Terms.asset_path env query format w).
  match goal with
  | |- context [saveImageToDisk env ?p ?d ?w0] =>
      destruct (saveImageToDisk_run env p d w0) as (w1 & Hfiles & Hout & _ & _ & Hsave);
      change (Terms.disk_fault env w0 p) with (Terms.disk_fault env w p) in Hsave;
      rewrite Hdisk in Hsave; rewrite Hsave
  end.
  eexists. split; [reflexivity|]. now rewrite Hfiles, Hout.
Qed.

Lemma save_failure_is_reported_witness :
  exists w',
    generateImage
      (Cases.env_with Cases.one_image (Answer Cases.png_bytes)
         (Some "EROFS: read-only file system"))
      (Str "a carrot") Undefined Undefined (Str "sk-test") (Str "replicate")
      (Bool true) Sample.world0
    = (Throw (Error "Failed to save image: EROFS: read-only file system"), w')
    /\ files w' = files Sample.world0
    /\ outbound w' = outbound Sample.world0.
Proof.
  apply (save_failure_is_reported
           (Cases.env_with Cases.one_image (Answer Cases.png_bytes)
              (Some "EROFS: read-only file system"))
           "a carrot" Undefined Undefined (Str "sk-test") (Str "replicate")
           (Bool true) Sample.world0 "EROFS: read-only file system");
    reflexivity.
Defined.

End GatewayPaths.

(** ** The service behind the controller *)

Section ServiceAndController.
Import JsString Js Sys Http ConfigService.

Lemma or_else_default_null v d : or_else (default_to v Null) d = or_else v d.
Proof. now destruct v. Qed.

Lemma default_provider_truthy config : truthy (getDefaultProvider config) = true.
Proof.
  unfold getDefaultProvider, or_else.
  now destruct (truthy (get_opt config "provider")) eqn:H.
Qed.

Lemma effective_provider_truthy config body :
  truthy (Cases.effective_provider config body) = true.
Proof.
  unfold Cases.effective_provider, or_else.
  destruct (truthy (get body "provider")) eqn:H; [exact H|].
  apply default_provider_truthy.
Qed.

Lemma strict_eq_refl v : strict_eq v v = true.
Proof.
  destruct v as [| |b|n|s|r l|r l]; cbn; auto using Z.eqb_refl, String.eqb_refl, Nat.eqb_refl.
  now destruct b.
Qed.

Lemma strict_eq_truthy a b : strict_eq a b = true -> truthy a = truthy b.
Proof.
  destruct a, b; cbn; try discriminate; try reflexivity.
  - intros H. apply Bool.eqb_prop in H. now subst.
  - intros H. apply Z.eqb_eq in H. now subst.
  - intros H. apply String.eqb_eq in H. now subst.
Qed.

(** generateAsset, once its arguments are those of a request. *)
Lemma service_call_run env config body w :
  Cases.service_call env config body w
  = if truthy (Cases.effective_key config body) then
      if strict_eq (get body "type") (Str "image") then
        AssetService.generateImage env (get body "query") (get body "format")
          (get body "style") (Cases.effective_key config body)
          (Cases.effective_provider config body)
          (default_to (get body "transparent") (Bool true)) w
      else (Throw (Error ("Unsupported asset type: " +:+ to_string (get body "type"))), w)
    else (Throw (Error ("No API key provided for "
                        +:+ to_string (Cases.effective_provider config body)
                        +:+ ". Please provide an API key or configure one using the CLI.")),
          w).
Proof.
  unfold Cases.service_call, AssetService.generateAsset,
    Cases.effective_key, Cases.effective_provider. cbv zeta.
  rewrite or_else_default_null.
  destruct (truthy (or_else (get body "api_key") _)); cbn [negb]; [|reflexivity].
  now destruct (strict_eq (get body "type") (Str "image")).
Qed.

(** The controller, given how the service ends. *)
Lemma controller_run env config body w :
  AssetController.generateAsset env config body w
  = match Cases.service_call env config body w with
    | (Return asset, w') => (Return {| statusCode := 200; json := AssetJson asset |}, w')
    | (Throw e, w') =>
        (Return
           (if JsString.includes (error_message e) "API key" then
              Cases.failure_response 401 "Invalid or missing API key." (error_message e)
            else if JsString.includes (error_message e) "provider" then
              Cases.failure_response 400 "Invalid provider specified." (error_message e)
            else if JsString.includes (error_message e) "rate limit" then
              Cases.failure_response 429 "Rate limit exceeded. Please try again later."
                (error_message e)
            else
              Cases.failure_response 500 "An error occurred while generating the asset."
                (error_message e)),
         w')
    end.
Proof.
  unfold AssetController.generateAsset, try_catch, Cases.service_call. run_monad.
  destruct (AssetService.generateAsset _ _ _ _ _ _ _ _ _ w) as [[asset|e] w'];
    [reflexivity|].
  destruct (JsString.includes (error_message e) "API key"); [reflexivity|].
  destruct (JsString.includes (error_message e) "provider"); [reflexivity|].
  now destruct (JsString.includes (error_message e) "rate limit").
Qed.

(** X9: when a request names a provider that is a string, or leaves it
    to a configuration whose provider is one, carries no api_key, and the
    configuration supplies no key for that provider, the service fails
    before it draws an identifier, calls the network or touches the disk,
    whatever the type of the request, and the controller answers 401 with
    the message of the failure, which names the provider. *)
Theorem missing_key_is_unauthorized env config body provider w :
  Cases.nullish body = false ->
  Cases.effective_provider config body = Str provider ->
  truthy (get body "api_key") = false ->
  truthy (getDefaultApiKey config (Str provider)) = false ->
  AssetController.generateAsset env config body w
  = (Return
       (Cases.failure_response 401 "Invalid or missing API key."
          ("No API key provided for " +:+ provider
           +:+ ". Please provide an API key or configure one using the CLI.")),
     w).
Proof.
  intros _ Hprovider Hkey Hdefault.
  rewrite controller_run, service_call_run.
  unfold Cases.effective_key, or_else at 1.
  rewrite Hkey, Hprovider, Hdefault.
  cbn [error_message to_string]. reflexivity.
Qed.

Lemma missing_key_is_unauthorized_witness :
  AssetController.generateAsset Sample.env0 Sample.stored Sample.stability_body
    Sample.world0
  = (Return
       (Cases.failure_response 401 "Invalid or missing API key."
          "No API key provided for stability. Please provide an API key or configure one using the CLI."),
     Sample.world0).
Proof.
  apply (missing_key_is_unauthorized Sample.env0 Sample.stored
           Sample.stability_body "stability" Sample.world0); reflexivity.
Defined.

Lemma first_failure_none config body :
  Rules.first_failure config body = None ->
  Rules.holds Rules.query_present config body = true
  /\ Rules.holds Rules.type_is_image config body = true
  /\ Rules.holds Rules.format_in_enum config body = true
  /\ Rules.holds Rules.api_key_resolvable config body = true
  /\ Rules.holds Rules.provider_in_enum config body = true
  /\ Rules.holds Rules.transparent_boolean config body = true.
Proof.
  unfold Rules.first_failure, Rules.rules.
  rewrite !filter_cons, filter_nil.
  repeat (destruct (decide _) as [?|?%not_false_is_true]; [discriminate|]).
  intros _. repeat split; assumption.
Qed.

Lemma boolean_or_absent v :
  strict_eq v Undefined || String.eqb (typeof v) "boolean" = true ->
  exists b, default_to v (Bool true) = Bool b.
Proof. destruct v; try discriminate; cbn; eauto. Qed.

(** X10: behind validation the service's own guards never fire: for a
    body that validation lets through, generateAsset is generateImage run
    on the query, format and style of the body, with the key and the
    provider of the body or else of the configuration (both present), and
    with a boolean transparent, true when the body has none. *)
Theorem validated_request_is_generated env config body :
  Rules.first_failure config body = None ->
  truthy (Cases.effective_key config body) = true
  /\ truthy (Cases.effective_provider config body) = true
  /\ exists transparent : bool,
       default_to (get body "transparent") (Bool true) = Bool transparent
       /\ forall w,
            Cases.service_call env config body w
            = AssetService.generateImage env (get body "query")
                (get body "format") (get body "style")
                (Cases.effective_key config body)
                (Cases.effective_provider config body) (Bool transparent) w.
Proof.
  intros (_ & Htype & _ & Hkey & _ & Htransparent)%first_failure_none.
  cbn [Rules.holds Rules.type_is_image Rules.api_key_resolvable
       Rules.transparent_boolean] in *.
  assert (Heffective : truthy (Cases.effective_key config body) = true).
  { unfold Cases.effective_key, or_else.
    destruct (truthy (get body "api_key")) eqn:Hown; [exact Hown|].
    exact Hkey. }
  split; [exact Heffective|]. split; [apply effective_provider_truthy|].
  apply boolean_or_absent in Htransparent as [b Hb]. exists b.
  split; [exact Hb|]. intros w.
  now rewrite service_call_run, Heffective, Htype, Hb.
Qed.

Lemma validated_request_is_generated_witness :
  truthy (Cases.effective_key Sample.stored Cases.bare_body) = true
  /\ truthy (Cases.effective_provider Sample.stored Cases.bare_body) = true
  /\ exists transparent : bool,
       default_to (get Cases.bare_body "transparent") (Bool true) = Bool transparent
       /\ forall w,
            Cases.service_call Sample.env0 Sample.stored Cases.bare_body w
            = AssetService.generateImage Sample.env0 (get Cases.bare_body "query")
                (get Cases.bare_body "format") (get Cases.bare_body "style")
                (Cases.effective_key Sample.stored Cases.bare_body)
                (Cases.effective_provider Sample.stored Cases.bare_body)
                (Bool transparent) w.
Proof.
  apply (validated_request_is_generated Sample.env0 Sample.stored Cases.bare_body).
  reflexivity.
Defined.

(** X11: validation does not check that the query is a string.  A body
    whose query is a number, true, an array or an object, and which is
    valid otherwise, passes validation and is answered 500 with the detail
    that query.toLowerCase is not a function; no identifier is drawn, no
    call is made and no file is written. *)
Theorem non_string_query_is_a_server_error env config body w :
  Rules.first_failure config body = None ->
  (forall s, get body "query" <> Str s) ->
  Terms.after_limiter env config body w
  = (Return
       (Cases.failure_response 500 "An error occurred while generating the asset."
          "query.toLowerCase is not a function"),
     w).
Proof.
  intros Hvalid Hquery. unfold Terms.after_limiter.
  rewrite validate_first_failure, Hvalid, controller_run.
  pose proof Hvalid as (Hpresent & Htype & _ & Hkey & _ & Htransparent)%first_failure_none.
  cbn [Rules.holds Rules.query_present Rules.type_is_image
       Rules.api_key_resolvable] in *.
  assert (Heffective : truthy (Cases.effective_key config body) = true).
  { unfold Cases.effective_key, or_else.
    destruct (truthy (get body "api_key")) eqn:Hown; [exact Hown|exact Hkey]. }
  rewrite service_call_run, Heffective, Htype.
  unfold AssetService.generateImage. run_monad.
  destruct (get body "query") as [| |b|n|s|r l|r l] eqn:Hq;
    try discriminate Hpresent; try reflexivity.
  now destruct (Hquery s).
Qed.

Lemma non_string_query_is_a_server_error_witness :
  Terms.after_limiter Sample.env0 ConfigService.fallback Cases.numeric_query_body
    Sample.world0
  = (Return
       (Cases.failure_response 500 "An error occurred while generating the asset."
          "query.toLowerCase is not a function"),
     Sample.world0).
Proof.
  apply non_string_query_is_a_server_error; [reflexivity|].
  intros s. discriminate.
Defined.



(** X13: the controller always answers.  It answers 200 with the asset
    exactly when the service returns one; otherwise it answers 400, 401,
    429 or 500 with an error whose detail is the message of the failure,
    unchanged. *)
Theorem controller_always_answers env config body w :
  match Cases.service_call env config body w with
  | (Return asset, w') =>
      AssetController.generateAsset env config body w
      = (Return {| statusCode := 200; json := AssetJson asset |}, w')
  | (Throw e, w') =>
      exists code message,
        AssetController.generateAsset env config body w
        = (Return (Cases.failure_response code message (error_message e)), w')
        /\ In code [400; 401; 429; 500]%Z
  end.
Proof.
  rewrite controller_run.
  destruct (Cases.service_call env config body w) as [[asset|e] w'];
    [reflexivity|].
  destruct (JsString.includes (error_message e) "API key");
    [eexists _, _; split; [reflexivity|cbn; auto]|].
  destruct (JsString.includes (error_message e) "provider");
    [eexists _, _; split; [reflexivity|cbn; auto]|].
  destruct (JsString.includes (error_message e) "rate limit");
    eexists _, _; (split; [reflexivity|cbn; auto]).
Qed.

End ServiceAndController.

(** ** The stored configuration and the requests that rely on it *)

Section StoredDefaults.
Import JsString Js Sys Http ConfigService.

(** X14: a configuration that stores no provider (or a falsy one) never
    supplies its key to a request.  The default provider is then openai,
    and getDefaultApiKey, which compares the provider it is given with the
    stored one, returns null for every provider that is truthy, as the
    provider of a request always is; so every request without api_key
    fails resolution of its key.  The stored key is handed out only for
    the stored falsy value itself. *)
Theorem stored_key_needs_stored_provider config :
  truthy (get config "provider") = false ->
  getDefaultProvider config = Str "openai"
  /\ (forall provider,
        truthy provider = true -> getDefaultApiKey config provider = Null)
  /\ (forall provider,
        getDefaultApiKey config provider <> Null ->
        strict_eq provider (get config "provider") = true
        /\ getDefaultApiKey config provider = get config "apiKey")
  /\ (truthy config = true ->
      getDefaultApiKey config (get config "provider") = get config "apiKey")
  /\ (forall body,
        truthy (get body "api_key") = false ->
        Rules.holds Rules.api_key_resolvable config body = false).
Proof.
  intros Hmissing.
  assert (Hnull : forall provider,
            truthy provider = true -> getDefaultApiKey config provider = Null).
  { intros provider Hprovider. unfold getDefaultApiKey.
    destruct (truthy config); cbn [negb]; [|reflexivity].
    destruct (strict_eq provider (get config "provider")) eqn:Heq;
      [|reflexivity].
    apply strict_eq_truthy in Heq. congruence. }
  split; [|split; [exact Hnull|split; [|split]]].
  - unfold getDefaultProvider, or_else, get_opt.
    destruct config; try reflexivity; now rewrite Hmissing.
  - intros provider. unfold getDefaultApiKey.
    destruct (truthy config); cbn [negb]; [|congruence].
    destruct (strict_eq provider (get config "provider")); [|congruence].
    now split.
  - intros Hconfig. unfold getDefaultApiKey.
    now rewrite Hconfig, strict_eq_refl.
  - intros body Hkey. cbn [Rules.holds Rules.api_key_resolvable].
    rewrite Hkey. fold (Cases.effective_provider config body).
    now rewrite (Hnull _ (effective_provider_truthy config body)).
Qed.

Lemma stored_key_needs_stored_provider_witness :
  truthy (get Cases.key_only_config "apiKey") = true
  /\ getDefaultApiKey Cases.key_only_config (Str "openai") = Null
  /\ getDefaultApiKey Cases.key_only_config Undefined = Str "sk-configured"
  /\ Rules.first_failure Cases.key_only_config Cases.bare_body
     = Some (Rules.failure Rules.api_key_resolvable).
Proof.
  destruct (stored_key_needs_stored_provider Cases.key_only_config eq_refl)
    as (_ & Hnull & _ & Hstored & Hrule).
  split; [reflexivity|]. split; [apply Hnull; reflexivity|].
  split; [apply Hstored; reflexivity|].
  apply first_failure_api_key; [reflexivity..|].
  apply Hrule. reflexivity.
Defined.

(** X15: when the configuration stores a provider, a request that names
    neither a provider nor an api_key is served with the stored provider
    and the stored key; its key resolves exactly when a key is stored.
    The stored provider is used as it is: the enumeration of providers is
    checked on the body only. *)
Theorem stored_defaults_are_used config body :
  truthy (get config "provider") = true ->
  truthy (get body "provider") = false ->
  truthy (get body "api_key") = false ->
  Cases.effective_provider config body = get config "provider"
  /\ Cases.effective_key config body = get config "apiKey"
  /\ Rules.holds Rules.api_key_resolvable config body
     = truthy (get config "apiKey")
  /\ Rules.holds Rules.provider_in_enum config body = true.
Proof.
  intros Hstored Hprovider Hkey.
  assert (Hconfig : truthy config = true).
  { destruct config; try discriminate Hstored. reflexivity. }
  assert (Hdefault : getDefaultProvider config = get config "provider").
  { unfold getDefaultProvider, or_else, get_opt.
    destruct config; try discriminate Hstored. now rewrite Hstored. }
  assert (Heffective : Cases.effective_provider config body = get config "provider").
  { unfold Cases.effective_provider, or_else. now rewrite Hprovider. }
  assert (Hget : getDefaultApiKey config (get config "provider") = get config "apiKey").
  { now rewrite getDefaultApiKey_cases, Hconfig, strict_eq_refl. }
  split; [exact Heffective|]. split; [|split].
  - unfold Cases.effective_key, or_else. now rewrite Hkey, Heffective, Hget.
  - cbn [Rules.holds Rules.api_key_resolvable].
    fold (Cases.effective_provider config body).
    now rewrite Hkey, Heffective, Hget.
  - cbn [Rules.holds Rules.provider_in_enum]. now rewrite Hprovider.
Qed.

Lemma stored_defaults_are_used_witness :
  Cases.effective_provider Sample.stored Cases.bare_body = Str "openai"
  /\ Cases.effective_key Sample.stored Cases.bare_body = Str "sk-configured"
  /\ Rules.holds Rules.api_key_resolvable Sample.stored Cases.bare_body = true
  /\ Rules.holds Rules.provider_in_enum Sample.stored Cases.bare_body = true.
Proof.
  apply (stored_defaults_are_used Sample.stored Cases.bare_body); reflexivity.
Defined.

End StoredDefaults.

(** ** The revision of the service that only writes placeholders *)

Section PlaceholderRevision.
Import JsString Js Sys Http.

Lemma createPlaceholderImage_run env filePath transparent w :
  exists w1,
    files w1 = files w /\ outbound w1 = outbound w
    /\ PlaceholderService.createPlaceholderImage env filePath transparent w
       = match Terms.disk_fault env w filePath with
         | None =>
             (Return tt,
              set_files (<[ filePath := AssetService.getPlaceholderImageData transparent ]>
                           (files w)) w1)
         | Some msg =>
             (Throw (Error ("Failed to create placeholder image: " +:+ msg)), w1)
         end
    /\ (Terms.disk_fault env w filePath = None ->
        PlaceholderService.createPlaceholderImage env filePath transparent w
        = AssetService.saveImageToDisk env filePath
            (AssetService.getPlaceholderImageData transparent) w).
Proof.
  unfold PlaceholderService.createPlaceholderImage, AssetService.saveImageToDisk,
    AssetService.getPlaceholderImageData, Terms.disk_fault, fs_existsSync,
    fs_mkdirSync, fs_writeFileSync. cbv zeta. run_monad.
  destruct (bool_decide (path_dirname env filePath ∈ dirs w)
            || bool_decide (is_Some (files w !! path_dirname env filePath)));
    cbn [negb].
  - exists w. split; [reflexivity|]. split; [reflexivity|].
    destruct (write_fault env filePath); [split; [reflexivity|discriminate]|].
    split; [|intros _];
      now destruct (truthy (default_to transparent (Bool true))).
  - destruct (mkdir_fault env (path_dirname env filePath)).
    + exists w. split; [reflexivity|]. split; [reflexivity|].
      split; [reflexivity|discriminate].
    + eexists (set_dirs _ w). split; [reflexivity|]. split; [reflexivity|].
      destruct (write_fault env filePath); [split; [reflexivity|discriminate]|].
      split; [|intros _];
        now destruct (truthy (default_to transparent (Bool true))).
Qed.

(** X16: the revision of the service that only writes placeholders never
    calls the network, whatever the provider and the key, openai
    included.  When the disk accepts the file it writes the placeholder
    image and answers exactly as the other revision does for a provider
    other than openai; when the disk refuses, it fails with "Failed to
    create placeholder image: " followed by the error of the disk. *)
Theorem placeholder_revision_is_offline env query format style api_key provider
    transparent w :
  outbound (snd (PlaceholderService.generateImage env (Str query) format style
                   api_key provider transparent w)) = outbound w
  /\ match Terms.disk_fault env w (Terms.asset_path env query format w) with
     | None =>
         exists asset w',
           PlaceholderService.generateImage env (Str query) format style api_key
             provider transparent w = (Return asset, w')
           /\ files w'
              = <[ Terms.asset_path env query format w
                   := AssetService.getPlaceholderImageData transparent ]> (files w)
           /\ (strict_eq provider (Str "openai") = false ->
               AssetService.generateImage env (Str query) format style api_key
                 provider transparent w = (Return asset, w'))
     | Some msg =>
         fst (PlaceholderService.generateImage env (Str query) format style
                api_key provider transparent w)
         = Throw (Error ("Failed to create placeholder image: " +:+ msg))
     end.
Proof.
  unfold PlaceholderService.generateImage, AssetService.generateImage.
  run_monad. rewrite generateFilename_run.
  fold (Terms.asset_path env query format w).
  destruct (createPlaceholderImage_run env (Terms.asset_path env query format w)
              transparent (set_drawn (S (drawn w)) w))
    as (w1 & Hfiles & Hout & Hrun & Hsame).
  change (Terms.disk_fault env (set_drawn (S (drawn w)) w))
    with (Terms.disk_fault env w) in Hrun, Hsame.
  destruct (Terms.disk_fault env w (Terms.asset_path env query format w)) as [msg|].
  - rewrite Hrun. split; [exact Hout|reflexivity].
  - split; [now rewrite Hrun|].
    eexists _, _. split; [now rewrite Hrun|]. split; [reflexivity|].
    intros ->. rewrite <- Hsame, Hrun by reflexivity. reflexivity.
Qed.

End PlaceholderRevision.

(** ** What a request can change on disk *)

Section DiskFrame.
Import JsString Js Sys Http.

Lemma saveImageToDisk_files env filePath imageData w :
  files (snd (AssetService.saveImageToDisk env filePath imageData w)) = files w
  \/ files (snd (AssetService.saveImageToDisk env filePath imageData w))
     = <[ filePath := imageData ]> (files w).
Proof.
  destruct (saveImageToDisk_run env filePath imageData w)
    as (w1 & Hfiles & _ & _ & _ & ->).
  destruct (Terms.disk_fault env w filePath); [now left|now right].
Qed.

Lemma generateImage_files env query format style api_key provider transparent w :
  files (snd (AssetService.generateImage env (Str query) format style api_key
                provider transparent w)) = files w
  \/ exists data,
       files (snd (AssetService.generateImage env (Str query) format style
                     api_key provider transparent w))
       = <[ Terms.asset_path env query format w := data ]> (files w).
Proof.
  unfold AssetService.generateImage. run_monad. rewrite generateFilename_run.
  fold (Terms.asset_path env query format w).
  assert (Hsave : forall data w0,
            files w0 = files w ->
            files (snd (match AssetService.saveImageToDisk env
                                (Terms.asset_path env query format w) data w0 with
                        | (Return a, w') =>
                            (Return
                               {| status := "success";
                                  file_path := Terms.asset_path env query format w;
                                  file_name := AssetService.filename_of query format
                                                 (uuid_source env (drawn w));
                                  meta := {| Meta.format := "png";
                                             Meta.style := or_else style (Str "default");
                                             Meta.dimensions := "256x256";
                                             Meta.transparent := transparent;
                                             Meta.query := Str query |} |}, w')
                        | (Throw e, w') => (Throw e, w')
                        end)) = files w
            \/ exists data',
                 files (snd (match AssetService.saveImageToDisk env
                                     (Terms.asset_path env query format w) data w0 with
                             | (Return a, w') =>
                                 (Return
                                    {| status := "success";
                                       file_path := Terms.asset_path env query format w;
                                       file_name := AssetService.filename_of query format
                                                      (uuid_source env (drawn w));
                                       meta := {| Meta.format := "png";
                                                  Meta.style := or_else style (Str "default");
                                                  Meta.dimensions := "256x256";
                                                  Meta.transparent := transparent;
                                                  Meta.query := Str query |} |}, w')
                             | (Throw e, w') => (Throw e, w')
                             end))
                 = <[ Terms.asset_path env query format w := data' ]> (files w)).
  { intros data w0 Hw0.
    pose proof (saveImageToDisk_files env (Terms.asset_path env query format w)
                  data w0) as Hcases.
    destruct (AssetService.saveImageToDisk env _ data w0) as [[[]|e] w'];
      cbn [snd] in *; rewrite Hw0 in Hcases; destruct Hcases; eauto. }
  destruct (strict_eq provider (Str "openai")).
  - unfold AssetService.callOpenAIImageAPI, axios_post. run_monad.
    destruct (post_reply env _ _ _ _) as [[[[[|first rest]|]]|]|e].
    + now left.
    + unfold AssetService.downloadImage, axios_get. run_monad.
      destruct (get_reply env _ _) as [bytes|e]; [|now left].
      apply Hsave. reflexivity.
    + now left.
    + now left.
    + destruct (error_response e) as [[upstream body]|]; [|now left].
      destruct (upstream =? 401)%Z; [now left|].
      destruct (upstream =? 429)%Z; [now left|].
      now destruct (upstream =? 400)%Z; destruct body as [|[[[m|]]|]]; left.
  - apply Hsave. reflexivity.
Qed.

(** X17: whatever the request and however the provider and the disk
    behave, the controller changes at most one file: the one generateImage
    names for the query of the request.  Every other path holds what it
    held, and a request whose query is not a string changes nothing. *)
Theorem controller_touches_one_file env config body w path :
  (forall query, get body "query" = Str query ->
                 path <> Terms.asset_path env query (get body "format") w) ->
  files (snd (AssetController.generateAsset env config body w)) !! path
  = files w !! path.
Proof.
  intros Hother.
  assert (Hservice : files (snd (Cases.service_call env config body w)) !! path
                     = files w !! path).
  { rewrite service_call_run.
    destruct (truthy (Cases.effective_key config body)); [|reflexivity].
    destruct (strict_eq (get body "type") (Str "image")); [|reflexivity].
    destruct (get body "query") as [| |b|n|q|r l|r l] eqn:Hq; try reflexivity.
    destruct (generateImage_files env q (get body "format") (get body "style")
                (Cases.effective_key config body)
                (Cases.effective_provider config body)
                (default_to (get body "transparent") (Bool true)) w)
      as [-> | [data ->]]; [reflexivity|].
    apply lookup_insert_ne. intros Heq. now apply (Hother q). }
  rewrite controller_run.
  destruct (Cases.service_call env config body w) as [[asset|e] w'];
    exact Hservice.
Qed.

Lemma controller_touches_one_file_witness :
  files (snd (AssetController.generateAsset Sample.env0 ConfigService.fallback
                Cases.openai_body Sample.world0))
    !! "generated-assets/../server.js"
  = files Sample.world0 !! "generated-assets/../server.js".
Proof.
  apply controller_touches_one_file.
  intros query [= <-]. vm_compute. discriminate.
Defined.

End DiskFrame.

(** ** What a request can send over the network *)

Section NetworkFrame.
Import JsString Js Sys Http.

Lemma saveImageToDisk_outbound env filePath imageData w :
  outbound (snd (AssetService.saveImageToDisk env filePath imageData w))
  = outbound w.
Proof.
  destruct (saveImageToDisk_run env filePath imageData w)
    as (w1 & _ & Hout & _ & _ & ->).
  now destruct (Terms.disk_fault env w filePath).
Qed.

Lemma generateImage_outbound env query format style api_key provider
    transparent w :
  (strict_eq provider (Str "openai") = false
   /\ outbound (snd (AssetService.generateImage env (Str query) format style
                       api_key provider transparent w)) = outbound w)
  \/ (strict_eq provider (Str "openai") = true
      /\ (outbound (snd (AssetService.generateImage env (Str query) format style
                           api_key provider transparent w))
          = Cases.provider_call (Str query) api_key transparent :: outbound w
          \/ exists first rest,
               post_reply env (outbound w) AssetService.images_endpoint
                 (AssetService.images_request
                    (Terms.prompt_for (Str query) transparent))
                 ("Bearer " +:+ to_string api_key)
               = Answer (Some {| data := Some (first :: rest) |})
               /\ outbound (snd (AssetService.generateImage env (Str query) format
                                   style api_key provider transparent w))
                  = Get (url first)
                      :: Cases.provider_call (Str query) api_key transparent
                      :: outbound w)).
Proof.
  unfold AssetService.generateImage. run_monad. rewrite generateFilename_run.
  destruct (strict_eq provider (Str "openai")); [right|left]; (split; [reflexivity|]).
  - unfold AssetService.callOpenAIImageAPI, axios_post. run_monad.
    cbn [outbound set_drawn].
    fold (Terms.prompt_for (Str query) transparent).
    fold (Cases.provider_call (Str query) api_key transparent).
    destruct (post_reply env _ _ _ _) as [[[[[|first rest]|]]|]|e] eqn:Hpost.
    + now left.
    + right. exists first, rest. split; [reflexivity|].
      unfold AssetService.downloadImage, axios_get. run_monad.
      cbn [outbound set_outbound].
      destruct (get_reply env _ _) as [bytes|e]; [|reflexivity].
      match goal with
      | |- context [AssetService.saveImageToDisk env ?p ?d ?w0] =>
          pose proof (saveImageToDisk_outbound env p d w0) as Hout;
          destruct (AssetService.saveImageToDisk env p d w0) as [[[]|e] w']
      end; exact Hout.
    + now left.
    + now left.
    + left. destruct (error_response e) as [[upstream body]|]; [|reflexivity].
      destruct (upstream =? 401)%Z; [reflexivity|].
      destruct (upstream =? 429)%Z; [reflexivity|].
      now destruct (upstream =? 400)%Z; destruct body as [|[[[m|]]|]].
  - match goal with
    | |- context [AssetService.saveImageToDisk env ?p ?d ?w0] =>
        pose proof (saveImageToDisk_outbound env p d w0) as Hout;
        destruct (AssetService.saveImageToDisk env p d w0) as [[[]|e] w']
    end; exact Hout.
Qed.

(** X18: whatever the request and however the provider and the disk
    behave, the controller sends nothing over the network unless the
    provider the request is served with is exactly openai; then it sends
    one request to the image endpoint, with the key as a bearer token, and
    at most one more call: the download, without any key, of the first URL
    the provider answered with.  Nothing is ever sent twice. *)
Theorem controller_calls_are_bounded env config body w :
  outbound (snd (AssetController.generateAsset env config body w)) = outbound w
  \/ (exists query,
        get body "query" = Str query
        /\ Cases.effective_provider config body = Str "openai"
        /\ (outbound (snd (AssetController.generateAsset env config body w))
            = Cases.provider_call (Str query) (Cases.effective_key config body)
                (default_to (get body "transparent") (Bool true))
                :: outbound w
            \/ exists first rest,
                 post_reply env (outbound w) AssetService.images_endpoint
                   (AssetService.images_request
                      (Terms.prompt_for (Str query)
                         (default_to (get body "transparent") (Bool true))))
                   ("Bearer " +:+ to_string (Cases.effective_key config body))
                 = Answer (Some {| data := Some (first :: rest) |})
                 /\ outbound (snd (AssetController.generateAsset env config body w))
                    = Get (url first)
                        :: Cases.provider_call (Str query)
                             (Cases.effective_key config body)
                             (default_to (get body "transparent") (Bool true))
                        :: outbound w)).
Proof.
  assert (Hsame : outbound (snd (AssetController.generateAsset env config body w))
                  = outbound (snd (Cases.service_call env config body w))).
  { rewrite controller_run.
    now destruct (Cases.service_call env config body w) as [[asset|e] w']. }
  rewrite !Hsame, service_call_run.
  destruct (truthy (Cases.effective_key config body)); [|now left].
  destruct (strict_eq (get body "type") (Str "image")); [|now left].
  destruct (get body "query") as [| |b|n|q|r l|r l] eqn:Hq; try now left.
  destruct (generateImage_outbound env q (get body "format") (get body "style")
              (Cases.effective_key config body)
              (Cases.effective_provider config body)
              (default_to (get body "transparent") (Bool true)) w)
    as [[_ Hnone]|[Hopenai Hcalls]]; [now left|].
  right. exists q. split; [reflexivity|]. split; [|exact Hcalls].
  destruct (Cases.effective_provider config body); try discriminate.
  cbn in Hopenai. apply String.eqb_eq in Hopenai. now subst.
Qed.

End NetworkFrame.
